(** * annotate_vcf_with_denovo_lls: merging a genotype VCF with de novo likelihoods

    A shallow embedding of [src/denovos/annotate_vcf_with_denovo_lls.py].
    The script walks a HipSTR genotype VCF (the primary stream), keeps a
    one-record lookahead into a DenovoFinder VCF (the secondary stream),
    checks that paired records describe the same variant, and writes the
    genotype record with the FORMAT fields of both files.

    Python objects are modelled by records, [exit] and uncaught exceptions by
    the [Raised] outcome, the mutable locals of [main] ([ll_record], the
    position of [ll_vcf_reader], what was written to [sys.stdout]) by an
    explicit process state threaded through a state-and-exception monad. *)

From stdpp Require Import gmap strings list.
From Stdlib Require Import ZArith Ascii.

Set Warnings "-register-all,-clear-no-such-hyp".

Local Open Scope Z_scope.

(** ** Exceptions and outcomes *)

(** Why [collections.namedtuple] rejects a list of field names. *)
Inductive namedtuple_error : Type :=
| NotAnIdentifier (name : string)
| IsAKeyword (name : string)
| LeadingUnderscore (name : string)
| DuplicateFieldName (name : string).

(** The exceptions that can leave [main]. [exit(msg)] raises [SystemExit]
    carrying the message; the others are raised by the interpreter or by
    the PyVCF library and are never caught by the script. *)
Inductive exn : Type :=
| SystemExit (msg : string)
| StopIteration
| KeyError (key : string)
| IndexError
| AttributeError (name : string)
| ValueError (why : namedtuple_error).

Inductive outcome (A : Type) : Type :=
| Returned (a : A)
| Raised (e : exn).
Arguments Returned {A} a.
Arguments Raised {A} e.

#[export] Instance outcome_ret : MRet outcome := λ A a, Returned a.
#[export] Instance outcome_bind : MBind outcome := λ A B f m,
  match m with
  | Returned a => f a
  | Raised e => Raised e
  end.
#[export] Instance outcome_fmap : FMap outcome := λ A B f m,
  match m with
  | Returned a => Returned (f a)
  | Raised e => Raised e
  end.

Definition exit {A : Type} (msg : string) : outcome A := Raised (SystemExit msg).

(** ** Python strings: [str.split] and [str.join] *)

(** [s.split(sep)] for a one-character separator: never returns the empty
    list, [''.split(':')] is [['']]. *)
Fixpoint split (sep : ascii) (s : string) : list string :=
  match s with
  | EmptyString => [EmptyString]
  | String c s' =>
      if decide (c = sep) then EmptyString :: split sep s'
      else match split sep s' with
           | [] => [String c EmptyString]
           | w :: ws => String c w :: ws
           end
  end.

(** [sep.join(l)]. *)
Fixpoint join (sep : string) (l : list string) : string :=
  match l with
  | [] => EmptyString
  | x :: rest =>
      match rest with
      | [] => x
      | _ :: _ => x +:+ sep +:+ join sep rest
      end
  end.

Definition colon : ascii := ":"%char.

(** ** Ordered dictionaries

    [reader.formats] is an [OrderedDict]: an association list, in insertion
    order, whose keys are pairwise distinct. *)
Definition dict (V : Type) : Type := list (string * V).

Definition keys {V} (d : dict V) : list string := d.*1.

Definition dict_wf {V} (d : dict V) : Prop := NoDup (keys d).

(** [d[k]], [None] standing for the [KeyError]. *)
Fixpoint dict_get {V} (k : string) (d : dict V) : option V :=
  match d with
  | [] => None
  | (k', v) :: rest => if decide (k' = k) then Some v else dict_get k rest
  end.

(** [k in d] *)
Definition dict_mem {V} (k : string) (d : dict V) : bool :=
  bool_decide (k ∈ keys d).

(** [d[k] = v]: overwrite in place when the key exists, append otherwise. *)
Fixpoint dict_set {V} (k : string) (v : V) (d : dict V) : dict V :=
  match d with
  | [] => [(k, v)]
  | (k', v') :: rest =>
      if decide (k' = k) then (k', v) :: rest else (k', v') :: dict_set k v rest
  end.

(** ** PyVCF records *)

(** Parsed sample values. Floats are never computed with: they are kept as
    the text they print as. The script itself only creates [PyStr "."]. *)
Inductive pyval : Type :=
| PyNone
| PyInt (z : Z)
| PyFloat (repr : string)
| PyStr (s : string)
| PyList (l : list pyval).

(** The elements of [record.ALT]: [None] for a missing allele, or one of
    PyVCF's [_AltRecord] objects. *)
Inductive alt_allele : Type :=
| AltNone
| Substitution (sequence : string)
| SV (type : string)
| Breakend (rendering : string).

(** [str(alt)] *)
Definition str (a : alt_allele) : string :=
  match a with
  | AltNone => "None"
  | Substitution sequence => sequence
  | SV type => "<" +:+ type +:+ ">"
  | Breakend rendering => rendering
  end.

(** A [_Call]: the sample name and its [data] namedtuple, field by field. *)
Record call : Type := Call {
  sample : string;
  data : dict pyval
}.

(** A [_Record]. [ID] is [None] when the column holds a dot; [REF] is a
    Python [str], so that [str(REF)] is [REF] itself. The record has a
    FORMAT column, as every record of a file with samples has. *)
Record vcf_record : Type := VcfRecord {
  CHROM : string;
  POS : Z;
  ID : option string;
  REF : string;
  ALT : list alt_allele;
  FORMAT : string;
  samples : list call
}.

(** A [_Format] header entry. *)
Record format_info : Type := Format {
  fmt_id : string;
  fmt_num : option Z;
  fmt_type : string;
  fmt_desc : string
}.

(** A [vcf.Reader]: header sample names, header FORMAT declarations, and
    the records the iterator still has to deliver, in file order. The
    records are taken as already parsed: what PyVCF raises while opening or
    parsing a malformed file is outside this model. *)
Record reader : Type := Reader {
  reader_samples : list string;
  formats : dict format_info;
  stream : list vcf_record
}.

(** ** [records_match] (lines 10-18) *)

Definition chrom_mismatch : string := "ERROR: Record chromosomes don't match".
Definition pos_mismatch : string := "ERROR: Record positions don't match".
Definition id_mismatch : string := "ERROR: Record IDs don't match".
Definition ref_mismatch : string := "ERROR: Record REF alleles don't match".
Definition alt_mismatch : string := "ERROR: Record alternate alleles don't match".

(** The loop of lines 16-18 over [range(len(rec_a.ALT))]; indexing past the
    end of a list is an [IndexError]. *)
Fixpoint alt_loop (indices : list nat) (alt_a alt_b : list alt_allele) : outcome unit :=
  match indices with
  | [] => Returned tt
  | i :: later =>
      match alt_a !! i, alt_b !! i with
      | Some a, Some b =>
          if decide (str a ≠ str b) then exit alt_mismatch
          else alt_loop later alt_a alt_b
      | _, _ => Raised IndexError
      end
  end.

Definition records_match (rec_a rec_b : vcf_record) : outcome unit :=
  if decide (CHROM rec_a ≠ CHROM rec_b) then exit chrom_mismatch
  else if decide (POS rec_a ≠ POS rec_b) then exit pos_mismatch
  else if decide (ID rec_a ≠ ID rec_b) then exit id_mismatch
  else if decide (REF rec_a ≠ REF rec_b) then exit ref_mismatch
  else if decide (length (ALT rec_a) ≠ length (ALT rec_b)) then exit alt_mismatch
  else alt_loop (seq 0 (length (ALT rec_a))) (ALT rec_a) (ALT rec_b).

(** The error the specification calls [PairingMismatchError]: an [exit]
    with one of the five messages of [records_match]. *)
Definition PairingMismatchError (e : exn) : Prop :=
  ∃ msg, e = SystemExit msg ∧
         msg ∈ [chrom_mismatch; pos_mismatch; id_mismatch; ref_mismatch; alt_mismatch].

(** Two records carry the same variant key. *)
Definition same_variant (a b : vcf_record) : Prop :=
  CHROM a = CHROM b ∧ POS a = POS b ∧ ID a = ID b ∧ REF a = REF b ∧
  str <$> ALT a = str <$> ALT b.

(** ** The process state of [main]

    The three things the pairing loop mutates: the one-record lookahead
    [ll_record] (line 34), the records [ll_vcf_reader] has not delivered
    yet, and what has been written to [sys.stdout] so far. *)
Inductive output : Type :=
| Header (samples : list string) (formats : dict format_info)
| Line (record : vcf_record).

Record proc : Type := Proc {
  ll_record : option vcf_record;
  ll_pending : list vcf_record;
  stdout : list output
}.

(** Computations of [main]: they read and update the process state, and
    either return or raise; the state reached when an exception is raised
    is kept (what was written stays written). *)
Definition M (A : Type) : Type := proc → outcome A * proc.

#[export] Instance M_ret : MRet M := λ A a st, (Returned a, st).
#[export] Instance M_bind : MBind M := λ A B f m st,
  match m st with
  | (Returned a, st') => f a st'
  | (Raised e, st') => (Raised e, st')
  end.

Definition lift {A} (o : outcome A) : M A := λ st, (o, st).

(** [for x in l: body(x)] *)
Fixpoint for_each {A} (body : A → M unit) (l : list A) : M unit :=
  match l with
  | [] => mret tt
  | x :: rest => body x ;; for_each body rest
  end.

(** Lines 52-53: refill the lookahead when it is empty.
    [ll_vcf_reader.next()] raises [StopIteration] at the end of the file.
    Returns the record the lookahead holds afterwards. *)
Definition fetch_ll_record : M vcf_record := λ st,
  match ll_record st with
  | Some r => (Returned r, st)
  | None =>
      match ll_pending st with
      | [] => (Raised StopIteration, st)
      | r :: rest =>
          (Returned r, {| ll_record := Some r; ll_pending := rest; stdout := stdout st |})
      end
  end.

(** Line 113: [vcf_writer.write_record(gt_record)] *)
Definition write_record (r : vcf_record) : M unit := λ st,
  (Returned tt, {| ll_record := ll_record st; ll_pending := ll_pending st;
                   stdout := stdout st ++ [Line r] |}).

(** Line 48: [vcf.Writer(sys.stdout, template)] writes the header at once. *)
Definition open_writer (samples : list string) (fmts : dict format_info) : M unit := λ st,
  (Returned tt, {| ll_record := ll_record st; ll_pending := ll_pending st;
                   stdout := stdout st ++ [Header samples fmts] |}).

(** Line 116: [ll_record = None] *)
Definition clear_ll_record : M unit := λ st,
  (Returned tt, {| ll_record := None; ll_pending := ll_pending st; stdout := stdout st |}).

(** ** PyVCF operations used by the loop *)

(** [call[key]], that is [getattr(call.data, key)]. *)
Definition call_getitem (c : call) (key : string) : outcome pyval :=
  match dict_get key (data c) with
  | Some v => Returned v
  | None => Raised (AttributeError key)
  end.

(** [reader._sample_indexes[name]]: the dictionary built from
    [enumerate(reader.samples)], in which a repeated name keeps its last
    index. *)
Fixpoint sample_index (names : list string) (name : string) : option nat :=
  match names with
  | [] => None
  | n :: rest =>
      match sample_index rest name with
      | Some i => Some (S i)
      | None => if decide (n = name) then Some 0%nat else None
      end
  end.

(** [record.genotype(name)], that is
    [record.samples[record._sample_indexes[name]]]. *)
Definition genotype (names : list string) (r : vcf_record) (name : string) : outcome call :=
  match sample_index names name with
  | None => Raised (KeyError name)
  | Some i =>
      match samples r !! i with
      | Some c => Returned c
      | None => Raised IndexError
      end
  end.

Definition excluded_fields : list string := ["GL"; "PL"; "PHASEDGL"].

Definition duplicate_fields : string := "ERROR: Duplicate FORMAT fields in the two VCFs".
Definition no_shared_samples : string :=
  "ERROR: No samples are shared between the raw VCF and the denovo VCF".
Definition format_collision (k : string) : string :=
  "ERROR: FORMAT field " +:+ k +:+ " present in both VCFs".

(** The names the specification gives to the other three exits. *)
Definition DuplicateFieldError : exn := SystemExit duplicate_fields.
Definition EmptyIntersectionError : exn := SystemExit no_shared_samples.
Definition FieldCollisionError (k : string) : exn := SystemExit (format_collision k).

(** ** Initialisation: merging the FORMAT declarations (lines 42-45)

    The loop runs over [ll_vcf_reader.formats.items()] and writes into
    [gt_vcf_reader.formats], which it also tests for membership: the
    dictionary is updated in place, so each test sees the entries added by
    the earlier iterations. Returns the updated [gt_vcf_reader.formats]. *)
Fixpoint unify_formats (items : list (string * format_info))
    (gt_formats : dict format_info) : outcome (dict format_info) :=
  match items with
  | [] => Returned gt_formats
  | (k, v) :: later =>
      if dict_mem k gt_formats then Raised (FieldCollisionError k)
      else unify_formats later (dict_set k v gt_formats)
  end.

(** ** The pairing loop (lines 51-116) *)

(** The class returned by [vcf.model.make_calldata_tuple]. *)
Record calldata_tuple : Type := CallData {
  _fields : list string;
  _types : list string;
  _nums : list (option Z)
}.

Section Interpreter.

(** What counts as an identifier and as a keyword is a matter of the
    interpreter version; the script does not depend on it. *)
Variable isidentifier : string → bool.
Variable iskeyword : string → bool.

(** First loop of [namedtuple]: type name and field names are
    identifiers and not keywords. *)
Fixpoint check_identifiers (names : list string) : outcome unit :=
  match names with
  | [] => Returned tt
  | name :: later =>
      if negb (isidentifier name) then Raised (ValueError (NotAnIdentifier name))
      else if iskeyword name then Raised (ValueError (IsAKeyword name))
      else check_identifiers later
  end.

(** Second loop of [namedtuple]: no leading underscore, no repetition. *)
Fixpoint check_field_names (seen : gset string) (names : list string) : outcome unit :=
  match names with
  | [] => Returned tt
  | name :: later =>
      if String.prefix "_" name then
        Raised (ValueError (LeadingUnderscore name))
      else if bool_decide (name ∈ seen) then
        Raised (ValueError (DuplicateFieldName name))
      else check_field_names ({[name]} ∪ seen) later
  end.

(** [vcf.model.make_calldata_tuple(fields)] (line 74): a namedtuple class
    named [calldata] with empty [_types] and [_nums]. *)
Definition make_calldata_tuple (fields : list string) : outcome calldata_tuple :=
  check_identifiers ("calldata" :: fields);;
  check_field_names ∅ fields;;
  mret {| _fields := fields; _types := []; _nums := [] |}.

Variable keep_LLs : bool.
(** [gt_vcf_reader.formats] as left by the initialisation, and the
    header of the likelihood file. *)
Variable gt_formats : dict format_info.
Variable ll_formats : dict format_info.
Variable ll_samples : list string.
Variable all_ll_samples : gset string.

(** Lines 69-72 *)
Definition merged_fields (gt_fields denovo_fields : list string) : list string :=
  if keep_LLs then gt_fields ++ denovo_fields
  else filter (λ x, x ∉ excluded_fields) (gt_fields ++ denovo_fields).

(** Lines 75-87: for each field of the new tuple, where it comes from,
    and its type and number for the writer. *)
Fixpoint field_origins (gt_fields : list string) (todo : list string)
    (samp_fmt : calldata_tuple) (in_gt : list bool)
    : outcome (calldata_tuple * list bool) :=
  match todo with
  | [] => Returned (samp_fmt, in_gt)
  | fmt :: later =>
      let from_gt := bool_decide (fmt ∈ gt_fields) in
      match dict_get fmt (if from_gt then gt_formats else ll_formats) with
      | None => Raised (KeyError fmt)
      | Some entry =>
          field_origins gt_fields later
            {| _fields := _fields samp_fmt;
               _types := _types samp_fmt ++ [fmt_type entry];
               _nums := _nums samp_fmt ++ [fmt_num entry] |}
            (in_gt ++ [from_gt])
      end
  end.

(** Lines 101-104: the value of one field of the new call. *)
Definition field_value (sample : call) (ll_sample : option call)
    (key : string) (from_gt : bool) : outcome pyval :=
  if from_gt then call_getitem sample key
  else match ll_sample with
       | None => Returned (PyStr ".")
       | Some c => call_getitem c key
       end.

(** Lines 98-104, for [i] running over [indices]. *)
Fixpoint sampdat_loop (sample : call) (ll_sample : option call)
    (fields : list string) (in_gt : list bool)
    (indices : list nat) (sampdat : list pyval) : outcome (list pyval) :=
  match indices with
  | [] => Returned sampdat
  | i :: later =>
      match fields !! i, in_gt !! i with
      | Some key, Some from_gt =>
          v ← field_value sample ll_sample key from_gt;
          sampdat_loop sample ll_sample fields in_gt later (sampdat ++ [v])
      | _, _ => Raised IndexError
      end
  end.

(** Lines 96-106: the new call of one sample of the genotype record. *)
Definition new_call (ll_rec : vcf_record) (samp_fmt : calldata_tuple)
    (in_gt : list bool) (sample0 : call) : outcome call :=
  ll_sample ← (if bool_decide (sample sample0 ∈ all_ll_samples)
               then Some <$> genotype ll_samples ll_rec (sample sample0)
               else Returned (@None call));
  sampdat ← sampdat_loop sample0 ll_sample (_fields samp_fmt) in_gt
               (seq 0 (length (_fields samp_fmt))) [];
  mret {| sample := sample sample0; data := zip (_fields samp_fmt) sampdat |}.

(** Lines 90-107: [for sample in gt_record]. *)
Fixpoint new_samples_loop (ll_rec : vcf_record) (samp_fmt : calldata_tuple)
    (in_gt : list bool) (todo : list call) (new_samples : list call)
    : outcome (list call) :=
  match todo with
  | [] => Returned new_samples
  | sample0 :: later =>
      c ← new_call ll_rec samp_fmt in_gt sample0;
      new_samples_loop ll_rec samp_fmt in_gt later (new_samples ++ [c])
  end.

(** Lines 69-110: the record to write for a validated pair. *)
Definition build_record (gt_record ll_rec : vcf_record)
    (gt_fields denovo_fields : list string) : outcome vcf_record :=
  let fields := merged_fields gt_fields denovo_fields in
  samp_fmt ← make_calldata_tuple fields;
  '(samp_fmt, in_gt) ← field_origins gt_fields (_fields samp_fmt) samp_fmt [];
  new_samples ← new_samples_loop ll_rec samp_fmt in_gt (samples gt_record) [];
  mret {| CHROM := CHROM gt_record; POS := POS gt_record; ID := ID gt_record;
          REF := REF gt_record; ALT := ALT gt_record;
          FORMAT := join ":" fields; samples := new_samples |}.

(** Lines 60-110: validate the pair, check for duplicated fields, build
    the record. The test of line 66 compares the length of the
    concatenation with the sum of the lengths. *)
Definition merge_record (gt_record ll_rec : vcf_record) : outcome vcf_record :=
  records_match gt_record ll_rec;;
  let gt_fields := split colon (FORMAT gt_record) in
  let denovo_fields := split colon (FORMAT ll_rec) in
  if decide (length (gt_fields ++ denovo_fields)
             ≠ (length gt_fields + length denovo_fields)%nat)
  then Raised DuplicateFieldError
  else build_record gt_record ll_rec gt_fields denovo_fields.

(** One iteration of the loop of line 51. [continue] ends the iteration
    without touching the state. *)
Definition loop_body (gt_record : vcf_record) : M unit :=
  ll_rec ← fetch_ll_record;
  if bool_decide (CHROM gt_record ≠ CHROM ll_rec)
     || bool_decide (POS gt_record < POS ll_rec)
  then mret tt
  else
    merged ← lift (merge_record gt_record ll_rec);
    write_record merged;;
    clear_ll_record.

End Interpreter.

(** ** [main] (lines 32-116)

    Argument parsing and the opening of the two files are the library's
    business: [main] is given the [--keep-gls] flag and the two readers.
    It returns how the run ended together with the final process state. *)
Definition main (isidentifier iskeyword : string → bool) (keep_LLs : bool)
    (gt_vcf_reader ll_vcf_reader : reader) : outcome unit * proc :=
  let all_ll_samples : gset string := list_to_set (reader_samples ll_vcf_reader) in
  (if decide (size (all_ll_samples ∩ list_to_set (reader_samples gt_vcf_reader)) = 0%nat)
   then lift (exit no_shared_samples)
   else
     gt_formats ← lift (unify_formats (formats ll_vcf_reader) (formats gt_vcf_reader));
     open_writer (reader_samples gt_vcf_reader) gt_formats;;
     for_each (loop_body isidentifier iskeyword keep_LLs gt_formats
                 (formats ll_vcf_reader) (reader_samples ll_vcf_reader) all_ll_samples)
              (stream gt_vcf_reader))
  {| ll_record := None; ll_pending := stream ll_vcf_reader; stdout := [] |}.

(** ** A concrete interpreter and concrete files for the examples *)

Definition is_name_start (c : ascii) : bool :=
  let n := nat_of_ascii c in
  ((65 <=? n) && (n <=? 90) || (97 <=? n) && (n <=? 122) || (n =? 95))%nat.

Definition is_name_char (c : ascii) : bool :=
  let n := nat_of_ascii c in
  (is_name_start c || (48 <=? n) && (n <=? 57))%nat.

(** [str.isidentifier] on ASCII names. *)
Definition ascii_isidentifier (s : string) : bool :=
  match s with
  | EmptyString => false
  | String c rest => is_name_start c && forallb is_name_char (String.list_ascii_of_string rest)
  end.

Definition py3_keywords : list string :=
  ["False"; "None"; "True"; "and"; "as"; "assert"; "async"; "await"; "break";
   "class"; "continue"; "def"; "del"; "elif"; "else"; "except"; "finally";
   "for"; "from"; "global"; "if"; "import"; "in"; "is"; "lambda"; "nonlocal";
   "not"; "or"; "pass"; "raise"; "return"; "try"; "while"; "with"; "yield"].

Definition py3_iskeyword (s : string) : bool := bool_decide (s ∈ py3_keywords).

Definition main3 : bool → reader → reader → outcome unit * proc :=
  main ascii_isidentifier py3_iskeyword.

Definition fmt (id type : string) : string * format_info :=
  (id, {| fmt_id := id; fmt_num := Some 1; fmt_type := type; fmt_desc := id |}).

(** A site of chromosome [chrom] at [pos] with one sample [s1]. *)
Definition site (chrom : string) (pos : Z) (format : string) (values : dict pyval)
    : vcf_record :=
  {| CHROM := chrom; POS := pos; ID := Some "rs1"; REF := "A";
     ALT := [Substitution "T"]; FORMAT := format;
     samples := [{| sample := "s1"; data := values |}] |}.

Definition gt_site (chrom : string) (pos : Z) : vcf_record :=
  site chrom pos "GT:DP" [("GT", PyStr "0/1"); ("DP", PyInt 30)].

Definition ll_site (chrom : string) (pos : Z) : vcf_record :=
  site chrom pos "DNM_LL" [("DNM_LL", PyFloat "-2.3")].

Definition gt_file (records : list vcf_record) : reader :=
  {| reader_samples := ["s1"]; formats := [fmt "GT" "String"; fmt "DP" "Integer"];
     stream := records |}.

Definition ll_file (records : list vcf_record) : reader :=
  {| reader_samples := ["s1"]; formats := [fmt "DNM_LL" "Float"]; stream := records |}.

(** The record written for [gt_site] paired with [ll_site]. *)
Definition merged_site (chrom : string) (pos : Z) : vcf_record :=
  site chrom pos "GT:DP:DNM_LL"
    [("GT", PyStr "0/1"); ("DP", PyInt 30); ("DNM_LL", PyFloat "-2.3")].

(** The genotype file has a second record at position 150; the likelihood
    file ends after position 100. *)
Definition gt_two_sites : reader := gt_file [gt_site "chr1" 100; gt_site "chr1" 150].
Definition ll_one_site : reader := ll_file [ll_site "chr1" 100].

(** Both records carry a [GL] field, which only the genotype header
    declares. *)
Definition gt_with_GL : reader :=
  {| reader_samples := ["s1"];
     formats := [fmt "GT" "String"; fmt "GL" "Float"];
     stream := [site "chr1" 100 "GT:GL"
                  [("GT", PyStr "0/1"); ("GL", PyFloat "-0.1")]] |}.
Definition ll_with_GL : reader :=
  {| reader_samples := ["s1"];
     formats := [fmt "DNM_LL" "Float"];
     stream := [site "chr1" 100 "GL:DNM_LL"
                  [("GL", PyStr "-7.5"); ("DNM_LL", PyFloat "-2.3")]] |}.

(** The genotype record has a [GL] field, the likelihood record has not. *)
Definition gt_only_GL : reader :=
  {| reader_samples := ["s1"; "s2"];
     formats := [fmt "GT" "String"; fmt "GL" "Float"];
     stream := [{| CHROM := "chr1"; POS := 100; ID := None; REF := "A";
                   ALT := [Substitution "T"]; FORMAT := "GT:GL";
                   samples := [{| sample := "s1";
                                  data := [("GT", PyStr "0/1"); ("GL", PyFloat "-0.1")] |};
                               {| sample := "s2";
                                  data := [("GT", PyStr "0/0"); ("GL", PyFloat "-0.2")] |}] |}] |}.
Definition ll_only_s1 : reader :=
  {| reader_samples := ["s1"];
     formats := [fmt "DNM_LL" "Float"];
     stream := [{| CHROM := "chr1"; POS := 100; ID := None; REF := "A";
                   ALT := [Substitution "T"]; FORMAT := "DNM_LL";
                   samples := [{| sample := "s1";
                                  data := [("DNM_LL", PyFloat "-2.3")] |}] |}] |}.

(** What the default run writes for them, and what [--keep-gls] writes. *)
Definition merged_without_GL : vcf_record :=
  {| CHROM := "chr1"; POS := 100; ID := None; REF := "A";
     ALT := [Substitution "T"]; FORMAT := "GT:DNM_LL";
     samples := [{| sample := "s1";
                    data := [("GT", PyStr "0/1"); ("DNM_LL", PyFloat "-2.3")] |};
                 {| sample := "s2";
                    data := [("GT", PyStr "0/0"); ("DNM_LL", PyStr ".")] |}] |}.
Definition merged_with_GL : vcf_record :=
  {| CHROM := "chr1"; POS := 100; ID := None; REF := "A";
     ALT := [Substitution "T"]; FORMAT := "GT:GL:DNM_LL";
     samples := [{| sample := "s1";
                    data := [("GT", PyStr "0/1"); ("GL", PyFloat "-0.1");
                             ("DNM_LL", PyFloat "-2.3")] |};
                 {| sample := "s2";
                    data := [("GT", PyStr "0/0"); ("GL", PyFloat "-0.2");
                             ("DNM_LL", PyStr ".")] |}] |}.

(** A likelihood file that shares no sample with [gt_file] and declares
    [GT] again. *)
Definition ll_stranger_GT : reader :=
  {| reader_samples := ["s2"]; formats := [fmt "GT" "String"];
     stream := [ll_site "chr1" 100] |}.

(** Three genotype samples; the likelihood file knows two of them and
    lists them in the other order. *)
Definition gt_three_samples : reader :=
  {| reader_samples := ["s1"; "s2"; "s3"];
     formats := [fmt "GT" "String"];
     stream := [{| CHROM := "chr1"; POS := 100; ID := None; REF := "A";
                   ALT := [Substitution "T"]; FORMAT := "GT";
                   samples := [{| sample := "s1"; data := [("GT", PyStr "0/1")] |};
                               {| sample := "s2"; data := [("GT", PyStr "0/0")] |};
                               {| sample := "s3"; data := [("GT", PyStr "1/1")] |}] |}] |}.
Definition ll_two_samples : reader :=
  {| reader_samples := ["s2"; "s1"];
     formats := [fmt "DNM_LL" "Float"];
     stream := [{| CHROM := "chr1"; POS := 100; ID := None; REF := "A";
                   ALT := [Substitution "T"]; FORMAT := "DNM_LL";
                   samples := [{| sample := "s2";
                                  data := [("DNM_LL", PyFloat "-9.9")] |};
                               {| sample := "s1";
                                  data := [("DNM_LL", PyFloat "-2.3")] |}] |}] |}.
Definition merged_three_samples : vcf_record :=
  {| CHROM := "chr1"; POS := 100; ID := None; REF := "A";
     ALT := [Substitution "T"]; FORMAT := "GT:DNM_LL";
     samples := [{| sample := "s1";
                    data := [("GT", PyStr "0/1"); ("DNM_LL", PyFloat "-2.3")] |};
                 {| sample := "s2";
                    data := [("GT", PyStr "0/0"); ("DNM_LL", PyFloat "-9.9")] |};
                 {| sample := "s3";
                    data := [("GT", PyStr "1/1"); ("DNM_LL", PyStr ".")] |}] |}.

(** A genotype record with a field [AD], and a likelihood header that
    declares [AD] besides its own field. *)
Definition gt_with_AD (records_after : list vcf_record) : reader :=
  gt_file (site "chr1" 100 "GT:AD:DP"
             [("GT", PyStr "0/1"); ("AD", PyStr "3,4"); ("DP", PyInt 30)]
           :: records_after).
Definition ll_declaring_AD : reader :=
  {| reader_samples := ["s1"];
     formats := [fmt "DNM_LL" "Float"; fmt "AD" "String"];
     stream := [ll_site "chr1" 100] |}.

(** ** Statements about the merged record *)

(** How the call [c] written for the genotype call [s] gets its values:
    a field of the genotype record's FORMAT carries the value [s] has for
    it; any other field comes from the likelihood record's FORMAT and
    carries the missing-value marker when the sample is unknown to the
    likelihood file, and otherwise the value of the sample's own
    likelihood call: the call of the likelihood record at the position the
    sample's name has in the likelihood header (the last such position,
    should the header repeat a name), which bears the sample's name when
    the calls of the record follow the header. *)
Definition sample_resolved (all_ll_samples : gset string) (ll_samples : list string)
    (ll_rec : vcf_record) (gt_fields denovo_fields fields : list string)
    (s c : call) : Prop :=
  sample c = sample s ∧ keys (data c) = fields ∧
  ∀ key, key ∈ fields →
    (key ∈ gt_fields ∧ (key ∉ denovo_fields) ∧
     ∃ v, call_getitem s key = Returned v ∧ call_getitem c key = Returned v)
    ∨ ((key ∉ gt_fields) ∧ key ∈ denovo_fields ∧
       (((sample s ∉ all_ll_samples) ∧ call_getitem c key = Returned (PyStr "."))
        ∨ (sample s ∈ all_ll_samples ∧
           ∃ (i : nat) (ll_sample : call) (v : pyval),
             ll_samples !! i = Some (sample s) ∧
             (∀ j : nat, (i < j)%nat → ll_samples !! j ≠ Some (sample s)) ∧
             samples ll_rec !! i = Some ll_sample ∧
             (sample <$> samples ll_rec = ll_samples → sample ll_sample = sample s) ∧
             call_getitem ll_sample key = Returned v ∧
             call_getitem c key = Returned v))).

(** ** Statements about the initialisation *)

(** Idempotence as the specification words it: after a first unification
    of the secondary registry [S] into the primary registry [P], a second
    run on the same registries raises nothing and leaves the same set of
    field names. *)
Definition unification_idempotent (P S : dict format_info) : Prop :=
  ∀ U, unify_formats S P = Returned U →
       ∃ U', unify_formats S U = Returned U' ∧
             (list_to_set (keys U') : gset string) = list_to_set (keys U).

(** ** Well-formed input *)

(** A record as PyVCF parses it for a reader whose header lists the
    samples [names]: one call per header sample, in header order, and in
    each call one value per field of the record's FORMAT column. *)
Definition record_wf (names : list string) (r : vcf_record) : Prop :=
  sample <$> samples r = names ∧
  Forall (λ c, keys (data c) = split colon (FORMAT r)) (samples r).

(** The dictionary in which lines 77-83 look a field up:
    [gt_vcf_reader.formats], which after line 45 also holds the likelihood
    declarations, for a field of the genotype record, and
    [ll_vcf_reader.formats] for any other field. *)
Definition origin_formats (gt_formats ll_formats : dict format_info)
    (gt_fields : list string) (f : string) : dict format_info :=
  if bool_decide (f ∈ gt_fields) then gt_formats else ll_formats.

(** The exceptions that come out of the interpreter or of PyVCF while a
    record is built, as opposed to the exits of the script. *)
Definition raised_by_library (e : exn) : Prop :=
  match e with
  | ValueError _ | KeyError _ | IndexError | AttributeError _ => True
  | SystemExit _ | StopIteration => False
  end.

(** A walk of the loop that ends on a merge: the genotype records [gts]
    are taken in order against the likelihood records [lls]; each one is
    either passed over by the test of line 56 while the same likelihood
    record waits, or merged with it into the next record of [rs], after
    which the next likelihood record is up. All of [lls] get merged. *)
Inductive walked (merge : vcf_record → vcf_record → outcome vcf_record)
  : list vcf_record → list vcf_record → list vcf_record → Prop :=
| walked_nil : walked merge [] [] []
| walked_skip gt_record gts ll_rec lls rs :
    CHROM gt_record ≠ CHROM ll_rec ∨ POS gt_record < POS ll_rec →
    walked merge gts (ll_rec :: lls) rs →
    walked merge (gt_record :: gts) (ll_rec :: lls) rs
| walked_merge gt_record gts ll_rec lls r rs :
    merge gt_record ll_rec = Returned r →
    walked merge gts lls rs →
    walked merge (gt_record :: gts) (ll_rec :: lls) (r :: rs).

(** A likelihood file in step with [gt_two_sites]. *)
Definition ll_two_sites : reader := ll_file [ll_site "chr1" 100; ll_site "chr1" 150].

(** * Properties *)

(** ** The pairing validator *)

Lemma alt_loop_seq (alt_a alt_b : list alt_allele) (n k : nat) :
  length alt_a = length alt_b →
  (k + n)%nat = length alt_a →
  alt_loop (seq k n) alt_a alt_b =
    if decide (drop k (str <$> alt_a) = drop k (str <$> alt_b))
    then Returned tt else exit alt_mismatch.
Proof.
  intros Hlen. revert k. induction n as [|n IH]; intros k Hk; simpl.
  - rewrite !drop_ge by (rewrite length_fmap; lia).
    by rewrite decide_True.
  - destruct (lookup_lt_is_Some_2 alt_a k) as [a Ha]; [lia|].
    destruct (lookup_lt_is_Some_2 alt_b k) as [b Hb]; [lia|].
    rewrite Ha, Hb.
    rewrite (drop_S (str <$> alt_a) (str a) k) by (by rewrite list_lookup_fmap, Ha).
    rewrite (drop_S (str <$> alt_b) (str b) k) by (by rewrite list_lookup_fmap, Hb).
    rewrite IH by lia.
    destruct (decide (str a ≠ str b)) as [Hne|Heq].
    + rewrite decide_False; [done|]. intros [=]. done.
    + apply dec_stable in Heq. rewrite Heq.
      destruct (decide (drop (S k) (str <$> alt_a) = drop (S k) (str <$> alt_b))) as [->|Hd].
      * by rewrite decide_True.
      * rewrite decide_False; [done|]. intros [=]. done.
Qed.

Lemma PairingMismatchError_exit (msg : string) :
  msg ∈ [chrom_mismatch; pos_mismatch; id_mismatch; ref_mismatch; alt_mismatch] →
  PairingMismatchError (SystemExit msg).
Proof. intros Hin. by exists msg. Qed.

(** [records_match] decides [same_variant]. *)
Lemma records_match_cases (rec_a rec_b : vcf_record) :
  (same_variant rec_a rec_b ∧ records_match rec_a rec_b = Returned tt) ∨
  (¬ same_variant rec_a rec_b ∧
   ∃ msg, records_match rec_a rec_b = exit msg ∧
          msg ∈ [chrom_mismatch; pos_mismatch; id_mismatch; ref_mismatch; alt_mismatch]).
Proof.
  unfold records_match, same_variant.
  repeat case_decide;
    try (right; split;
         [intros (?&?&?&?&Halt); apply (f_equal length) in Halt;
          rewrite !length_fmap in Halt; congruence|];
         eexists; split; [reflexivity|set_solver]).
  repeat match goal with H : ¬ (_ ≠ _) |- _ => apply dec_stable in H end.
  rewrite alt_loop_seq by (done || lia).
  rewrite !drop_0. case_decide.
  - by left.
  - right. split; [intros (?&?&?&?&?); congruence|].
    eexists; split; [reflexivity|set_solver].
Qed.

Lemma records_match_Returned (rec_a rec_b : vcf_record) :
  records_match rec_a rec_b = Returned tt → same_variant rec_a rec_b.
Proof.
  destruct (records_match_cases rec_a rec_b) as [[? _]|(_ & msg & -> & _)]; done.
Qed.

(** C1. [records_match] returns normally on every pair of records with the
    same chromosome, position, identifier, reference allele and list of
    alternate alleles (same length, elementwise equal once printed with
    [str]); on every other pair it exits with one of its five mismatch
    messages, the [PairingMismatchError] of the specification. *)
Theorem records_match_correct (rec_a rec_b : vcf_record) :
  (same_variant rec_a rec_b → records_match rec_a rec_b = Returned tt) ∧
  (¬ same_variant rec_a rec_b →
   ∃ e, records_match rec_a rec_b = Raised e ∧ PairingMismatchError e).
Proof.
  destruct (records_match_cases rec_a rec_b) as [[Hsame Hrun]|(Hdiff & msg & Hrun & Hmsg)].
  - split; [done|]. by intros [].
  - split; [by intros ?|]. intros _. exists (SystemExit msg). split; [done|].
    by apply PairingMismatchError_exit.
Qed.

Lemma records_match_correct_witness :
  records_match (gt_site "chr1" 100) (ll_site "chr1" 100) = Returned tt ∧
  ∃ e, records_match (gt_site "chr1" 100) (ll_site "chr1" 150) = Raised e ∧
       PairingMismatchError e.
Proof.
  split.
  - apply (proj1 (records_match_correct _ _)). by vm_compute.
  - apply (proj2 (records_match_correct _ _)). intros (_ & Hpos & _). by vm_compute in Hpos.
Defined.

(** ** The pairing loop *)

Section Loop.

Variables isidentifier iskeyword : string → bool.
Variable keep_LLs : bool.
Variables gt_formats ll_formats : dict format_info.
Variable ll_samples : list string.
Variable all_ll_samples : gset string.

Let body : vcf_record → M unit :=
  loop_body isidentifier iskeyword keep_LLs gt_formats ll_formats
    ll_samples all_ll_samples.

Let merge : vcf_record → vcf_record → outcome vcf_record :=
  merge_record isidentifier iskeyword keep_LLs gt_formats ll_formats
    ll_samples all_ll_samples.

(** The three ways an iteration with a filled lookahead can go. *)
Lemma body_buffered (gt_record ll_rec : vcf_record)
    (pending : list vcf_record) (out : list output) :
  body gt_record {| ll_record := Some ll_rec; ll_pending := pending; stdout := out |} =
    if bool_decide (CHROM gt_record ≠ CHROM ll_rec)
       || bool_decide (POS gt_record < POS ll_rec)
    then (Returned tt, {| ll_record := Some ll_rec; ll_pending := pending; stdout := out |})
    else match merge gt_record ll_rec with
         | Returned merged =>
             (Returned tt, {| ll_record := None; ll_pending := pending;
                              stdout := out ++ [Line merged] |})
         | Raised e =>
             (Raised e, {| ll_record := Some ll_rec; ll_pending := pending; stdout := out |})
         end.
Proof.
  unfold body, merge, loop_body, mbind, M_bind, fetch_ll_record, lift. simpl.
  destruct (_ || _); [done|].
  by destruct (merge_record _ _ _ _ _ _ _ _ _).
Qed.

(** An empty lookahead is refilled from the likelihood reader first. *)
Lemma body_refill (gt_record ll_rec : vcf_record)
    (pending : list vcf_record) (out : list output) :
  body gt_record {| ll_record := None; ll_pending := ll_rec :: pending; stdout := out |} =
  body gt_record {| ll_record := Some ll_rec; ll_pending := pending; stdout := out |}.
Proof. done. Qed.

Lemma body_exhausted (gt_record : vcf_record) (out : list output) :
  body gt_record {| ll_record := None; ll_pending := []; stdout := out |} =
    (Raised StopIteration, {| ll_record := None; ll_pending := []; stdout := out |}).
Proof. done. Qed.

Lemma for_each_cons {A} (f : A → M unit) (x : A) (l : list A) (st : proc) :
  for_each f (x :: l) st =
    match f x st with
    | (Returned _, st') => for_each f l st'
    | (Raised e, st') => (Raised e, st')
    end.
Proof. done. Qed.

Lemma body_continue (gt_record ll_rec : vcf_record)
    (pending : list vcf_record) (out : list output) :
  bool_decide (CHROM gt_record ≠ CHROM ll_rec)
    || bool_decide (POS gt_record < POS ll_rec) = true →
  body gt_record {| ll_record := Some ll_rec; ll_pending := pending; stdout := out |} =
    (Returned tt, {| ll_record := Some ll_rec; ll_pending := pending; stdout := out |}).
Proof. intros Hskip. by rewrite body_buffered, Hskip. Qed.

(** The record just read into an empty lookahead stays there when the
    genotype record is skipped. *)
Lemma body_continue_after_refill (gt_record ll_rec : vcf_record)
    (pending : list vcf_record) (out : list output) :
  bool_decide (CHROM gt_record ≠ CHROM ll_rec)
    || bool_decide (POS gt_record < POS ll_rec) = true →
  body gt_record {| ll_record := None; ll_pending := ll_rec :: pending; stdout := out |} =
    (Returned tt, {| ll_record := Some ll_rec; ll_pending := pending; stdout := out |}).
Proof. intros Hskip. by rewrite body_refill, body_continue. Qed.

(** C2. A genotype record on another chromosome than the buffered
    likelihood record, or at a strictly smaller position, is skipped: the
    iteration returns with the process state as it found it, so nothing
    is written, the lookahead still holds the same record and the
    likelihood reader has not been read. *)
Theorem skip_keeps_lookahead (gt_record ll_rec : vcf_record)
    (pending : list vcf_record) (out : list output) :
  CHROM gt_record ≠ CHROM ll_rec ∨ POS gt_record < POS ll_rec →
  body gt_record {| ll_record := Some ll_rec; ll_pending := pending; stdout := out |} =
    (Returned tt, {| ll_record := Some ll_rec; ll_pending := pending; stdout := out |}).
Proof.
  intros Hskip. apply body_continue.
  destruct Hskip as [Hc|Hp].
  - by rewrite (bool_decide_eq_true_2 _ Hc).
  - rewrite (bool_decide_eq_true_2 _ Hp). by rewrite orb_true_r.
Qed.

(** C3. A genotype record on the chromosome of the buffered likelihood
    record but at a strictly greater position is not skipped and the
    likelihood reader is not advanced: [records_match] exits on the
    positions, which ends the whole loop with that error and with the
    process state unchanged. *)
Theorem later_position_aborts (gt_record ll_rec : vcf_record)
    (later pending : list vcf_record) (out : list output) :
  CHROM gt_record = CHROM ll_rec →
  POS ll_rec < POS gt_record →
  let st := {| ll_record := Some ll_rec; ll_pending := pending; stdout := out |} in
  records_match gt_record ll_rec = exit pos_mismatch ∧
  body gt_record st = (Raised (SystemExit pos_mismatch), st) ∧
  for_each body (gt_record :: later) st = (Raised (SystemExit pos_mismatch), st) ∧
  PairingMismatchError (SystemExit pos_mismatch).
Proof.
  intros Hc Hp st.
  assert (records_match gt_record ll_rec = exit pos_mismatch) as Hrm.
  { unfold records_match.
    rewrite decide_False by (intros ?; congruence).
    rewrite decide_True by lia. done. }
  assert (body gt_record st = (Raised (SystemExit pos_mismatch), st)) as Hbody.
  { unfold st. rewrite body_buffered.
    rewrite bool_decide_eq_false_2 by (intros ?; congruence).
    rewrite bool_decide_eq_false_2 by lia. simpl.
    unfold merge, merge_record. by rewrite Hrm. }
  split_and!; [done|done| |].
  - by rewrite for_each_cons, Hbody.
  - apply PairingMismatchError_exit. set_solver.
Qed.

(** With the lookahead empty and the likelihood reader at its end, the
    next genotype record ends the loop with an uncaught
    [StopIteration]. *)
Lemma loop_exhausted (gt_record : vcf_record) (later : list vcf_record)
    (out : list output) :
  for_each body (gt_record :: later)
    {| ll_record := None; ll_pending := []; stdout := out |} =
    (Raised StopIteration, {| ll_record := None; ll_pending := []; stdout := out |}).
Proof. by rewrite for_each_cons, body_exhausted. Qed.

(** C10. Once the lookahead holds a record whose chromosome is the
    chromosome of none of the remaining genotype records, the rest of the
    loop writes nothing, never reads the likelihood reader and keeps that
    record in the lookahead: it returns with the state unchanged. *)
Theorem stale_lookahead_skips_all (gt_records : list vcf_record) (ll_rec : vcf_record)
    (pending : list vcf_record) (out : list output) :
  Forall (λ gt_record, CHROM gt_record ≠ CHROM ll_rec) gt_records →
  for_each body gt_records
    {| ll_record := Some ll_rec; ll_pending := pending; stdout := out |} =
    (Returned tt, {| ll_record := Some ll_rec; ll_pending := pending; stdout := out |}).
Proof.
  induction 1 as [|gt_record later Hc _ IH]; [done|].
  rewrite for_each_cons, body_continue; [apply IH|].
  by rewrite (bool_decide_eq_true_2 _ Hc).
Qed.

End Loop.

Lemma skip_keeps_lookahead_witness :
  loop_body ascii_isidentifier py3_iskeyword false [] [] [] ∅ (gt_site "chr1" 100)
    {| ll_record := Some (ll_site "chr1" 150); ll_pending := []; stdout := [] |} =
  (Returned tt,
   {| ll_record := Some (ll_site "chr1" 150); ll_pending := []; stdout := [] |}).
Proof. apply skip_keeps_lookahead. right. reflexivity. Defined.

Lemma later_position_aborts_witness :
  let st := {| ll_record := Some (ll_site "chr1" 100); ll_pending := []; stdout := [] |} in
  records_match (gt_site "chr1" 150) (ll_site "chr1" 100) = exit pos_mismatch ∧
  loop_body ascii_isidentifier py3_iskeyword false [] [] [] ∅ (gt_site "chr1" 150) st
    = (Raised (SystemExit pos_mismatch), st) ∧
  for_each (loop_body ascii_isidentifier py3_iskeyword false [] [] [] ∅)
    [gt_site "chr1" 150; gt_site "chr1" 200] st
    = (Raised (SystemExit pos_mismatch), st) ∧
  PairingMismatchError (SystemExit pos_mismatch).
Proof. apply later_position_aborts; reflexivity. Defined.

Lemma stale_lookahead_skips_all_witness :
  for_each (loop_body ascii_isidentifier py3_iskeyword false [] [] [] ∅)
    [gt_site "chr2" 5; gt_site "chr2" 9]
    {| ll_record := Some (ll_site "chr1" 100); ll_pending := [ll_site "chr2" 5];
       stdout := [] |} =
  (Returned tt,
   {| ll_record := Some (ll_site "chr1" 100); ll_pending := [ll_site "chr2" 5];
      stdout := [] |}).
Proof.
  apply stale_lookahead_skips_all.
  repeat constructor; simpl; discriminate.
Defined.

(** ** Initialisation *)

Lemma dict_mem_true {V} (k : string) (d : dict V) : dict_mem k d = true ↔ k ∈ keys d.
Proof. unfold dict_mem. apply bool_decide_eq_true. Qed.

Lemma dict_mem_false {V} (k : string) (d : dict V) : dict_mem k d = false ↔ k ∉ keys d.
Proof. unfold dict_mem. apply bool_decide_eq_false. Qed.

(** Assigning to a new key appends the entry. *)
Lemma dict_set_fresh {V} (k : string) (v : V) (d : dict V) :
  k ∉ keys d → dict_set k v d = d ++ [(k, v)].
Proof.
  induction d as [|[k' v'] d IH]; simpl; [done|].
  rewrite not_elem_of_cons. intros [Hne Hnin].
  rewrite decide_False by done. by rewrite IH.
Qed.

Lemma keys_dict_set {V} (k k' : string) (v : V) (d : dict V) :
  k' ∈ keys d → k' ∈ keys (dict_set k v d).
Proof.
  induction d as [|[k0 v0] d IH]; simpl; [by rewrite elem_of_nil|].
  rewrite elem_of_cons. intros [->|Hin]; case_decide; simpl; set_solver.
Qed.

(** With disjoint names the loop of lines 42-45 appends the likelihood
    declarations to the genotype ones, in order. *)
Lemma unify_formats_disjoint (S P : dict format_info) :
  dict_wf S → (∀ k, k ∈ keys S → k ∉ keys P) →
  unify_formats S P = Returned (P ++ S).
Proof.
  unfold dict_wf. revert P. induction S as [|[k v] S IH]; intros P Hwf Hdisj; simpl.
  - by rewrite app_nil_r.
  - simpl in Hwf. apply NoDup_cons in Hwf as [Hk Hwf].
    rewrite (proj2 (dict_mem_false k P)) by (apply Hdisj; simpl; set_solver).
    rewrite dict_set_fresh by (apply Hdisj; simpl; set_solver).
    rewrite IH; [by rewrite <-app_assoc|done|].
    intros k' Hk'. unfold keys. rewrite fmap_app, elem_of_app. simpl.
    intros [HP|Heq%list_elem_of_singleton].
    + apply (Hdisj k'); [simpl; set_solver|done].
    + by subst.
Qed.

(** A name declared in both headers makes the loop exit. *)
Lemma unify_formats_collision (S P : dict format_info) :
  (∃ k, k ∈ keys S ∧ k ∈ keys P) →
  ∃ k', k' ∈ keys S ∧ unify_formats S P = Raised (FieldCollisionError k').
Proof.
  revert P. induction S as [|[k0 v0] S IH]; intros P (k & HS & HP); simpl in *.
  - by apply elem_of_nil in HS.
  - destruct (dict_mem k0 P) eqn:Hmem.
    + exists k0. split; [set_solver|done].
    + apply dict_mem_false in Hmem.
      destruct (IH (dict_set k0 v0 P)) as (k' & Hk' & Hrun).
      * exists k. split; [|by apply keys_dict_set].
        apply elem_of_cons in HS as [->|HS]; done.
      * exists k'. split; [set_solver|done].
Qed.

Lemma no_shared_sample_size (ll_names gt_names : list string) :
  size ((list_to_set ll_names : gset string) ∩ list_to_set gt_names) = 0%nat ↔
  ∀ s, s ∈ ll_names → s ∉ gt_names.
Proof.
  rewrite size_empty_iff. split.
  - intros Hempty s Hl Hg. apply (not_elem_of_empty (C:=gset string) s).
    rewrite <-Hempty. set_solver.
  - intros Hdisj. apply elem_of_equiv_empty. intros s.
    rewrite elem_of_intersection, !elem_of_list_to_set. intros [Hl Hg].
    by apply (Hdisj s).
Qed.

(** C6, as the code orders the two checks. When the two headers share no
    sample name the run exits with the [EmptyIntersectionError] message;
    when they share a sample and the likelihood header declares a FORMAT
    name that the genotype header declares too, it exits with the
    [FieldCollisionError] message of one of the likelihood names. In both
    cases the final process state is the initial one: nothing, not even the
    header, has been written, no likelihood record has been read and the
    loop has not been entered. *)
Theorem init_errors_precede_output (isidentifier iskeyword : string → bool)
    (keep_LLs : bool) (gt_vcf_reader ll_vcf_reader : reader) :
  let st0 := {| ll_record := None; ll_pending := stream ll_vcf_reader; stdout := [] |} in
  ((∀ s, s ∈ reader_samples ll_vcf_reader → s ∉ reader_samples gt_vcf_reader) →
   main isidentifier iskeyword keep_LLs gt_vcf_reader ll_vcf_reader
     = (Raised EmptyIntersectionError, st0)) ∧
  ((∃ s, s ∈ reader_samples ll_vcf_reader ∧ s ∈ reader_samples gt_vcf_reader) →
   (∃ k, k ∈ keys (formats ll_vcf_reader) ∧ k ∈ keys (formats gt_vcf_reader)) →
   ∃ k', k' ∈ keys (formats ll_vcf_reader) ∧
         main isidentifier iskeyword keep_LLs gt_vcf_reader ll_vcf_reader
           = (Raised (FieldCollisionError k'), st0)).
Proof.
  intros st0. unfold main. split.
  - intros Hnone. by rewrite decide_True by (by apply no_shared_sample_size).
  - intros (s & Hl & Hg) Hcoll.
    rewrite decide_False by (rewrite no_shared_sample_size; intros H; by apply (H s)).
    destruct (unify_formats_collision _ _ Hcoll) as (k' & Hk' & Hrun).
    exists k'. split; [done|].
    unfold mbind, M_bind, lift. by rewrite Hrun.
Qed.

Lemma init_errors_precede_output_witness :
  main3 false (gt_file [gt_site "chr1" 100])
    {| reader_samples := ["s2"]; formats := [fmt "DNM_LL" "Float"];
       stream := [ll_site "chr1" 100] |}
    = (Raised EmptyIntersectionError,
       {| ll_record := None; ll_pending := [ll_site "chr1" 100]; stdout := [] |}) ∧
  ∃ k', k' ∈ ["GT"] ∧
    main3 false (gt_file [gt_site "chr1" 100])
      {| reader_samples := ["s1"]; formats := [fmt "GT" "String"];
         stream := [ll_site "chr1" 100] |}
    = (Raised (FieldCollisionError k'),
       {| ll_record := None; ll_pending := [ll_site "chr1" 100]; stdout := [] |}).
Proof.
  split.
  - apply (proj1 (init_errors_precede_output ascii_isidentifier py3_iskeyword false
                    (gt_file [gt_site "chr1" 100])
                    {| reader_samples := ["s2"]; formats := [fmt "DNM_LL" "Float"];
                       stream := [ll_site "chr1" 100] |})).
    simpl. intros s ->%list_elem_of_singleton [=]%list_elem_of_singleton.
  - apply (proj2 (init_errors_precede_output ascii_isidentifier py3_iskeyword false
                    (gt_file [gt_site "chr1" 100])
                    {| reader_samples := ["s1"]; formats := [fmt "GT" "String"];
                       stream := [ll_site "chr1" 100] |})).
    + exists "s1". simpl. split; apply list_elem_of_singleton; reflexivity.
    + exists "GT". simpl. split; [apply list_elem_of_singleton; reflexivity|].
      apply elem_of_cons. by left.
Defined.

(** C6, as the specification words it, fails when both conditions hold:
    [GT] is declared by both headers, yet the run exits on the samples and
    not with a [FieldCollisionError]. *)
Lemma collision_masked_by_samples :
  (∃ k, k ∈ keys (formats ll_stranger_GT) ∧ k ∈ keys (formats (gt_file []))) ∧
  main3 false (gt_file []) ll_stranger_GT
    = (Raised EmptyIntersectionError,
       {| ll_record := None; ll_pending := stream ll_stranger_GT; stdout := [] |}) ∧
  ∀ k, (main3 false (gt_file []) ll_stranger_GT).1 ≠ Raised (FieldCollisionError k).
Proof.
  split_and!.
  - exists "GT". split; simpl; set_solver.
  - by vm_compute.
  - intros k. by vm_compute.
Qed.

(** C9, as the code has it. On registries with disjoint names the
    unification succeeds and leaves the genotype registry holding its own
    names followed by the likelihood names. It has then written the
    likelihood names into the genotype registry, so a second run on the
    same registries exits with the collision message of the first
    likelihood name; only with no likelihood name at all is the second run
    a no-op. *)
Theorem unify_once_then_collides (P S : dict format_info) :
  dict_wf S → (∀ k, k ∈ keys S → k ∉ keys P) →
  unify_formats S P = Returned (P ++ S) ∧
  keys (P ++ S) = keys P ++ keys S ∧
  unify_formats S (P ++ S) =
    match S with
    | [] => Returned (P ++ S)
    | (k, _) :: _ => Raised (FieldCollisionError k)
    end.
Proof.
  intros Hwf Hdisj. split_and!.
  - by apply unify_formats_disjoint.
  - unfold keys. by rewrite fmap_app.
  - destruct S as [|[k v] S]; simpl; [done|].
    rewrite (proj2 (dict_mem_true k (P ++ (k, v) :: S))); [done|].
    unfold keys. rewrite fmap_app. simpl. set_solver.
Qed.

Lemma unify_once_then_collides_witness :
  unify_formats (formats (ll_file [])) (formats (gt_file []))
    = Returned (formats (gt_file []) ++ formats (ll_file [])) ∧
  unify_formats (formats (ll_file [])) (formats (gt_file []) ++ formats (ll_file []))
    = Raised (FieldCollisionError "DNM_LL").
Proof.
  destruct (unify_once_then_collides (formats (gt_file [])) (formats (ll_file [])))
    as (Hfirst & _ & Hsecond).
  - unfold dict_wf. simpl. apply NoDup_singleton.
  - simpl. intros k ->%list_elem_of_singleton Hin.
    repeat (apply elem_of_cons in Hin as [Hin|Hin]; [discriminate|]).
    by apply elem_of_nil in Hin.
  - split; [exact Hfirst|exact Hsecond].
Defined.

(** C9, as the specification words it, fails on the registries of the
    example files, whose names are disjoint: the second run exits on
    [DNM_LL]. *)
Lemma unification_not_idempotent :
  dict_wf (formats (gt_file [])) ∧ dict_wf (formats (ll_file [])) ∧
  (∀ k, k ∈ keys (formats (ll_file [])) → k ∉ keys (formats (gt_file []))) ∧
  ¬ unification_idempotent (formats (gt_file [])) (formats (ll_file [])).
Proof.
  split_and!.
  - unfold dict_wf. simpl. apply NoDup_cons. split; [set_solver|apply NoDup_singleton].
  - unfold dict_wf. simpl. apply NoDup_singleton.
  - simpl. set_solver.
  - intros Hidem. destruct (Hidem _ eq_refl) as (U' & Hrun & _). by vm_compute in Hrun.
Qed.

(** ** Splitting and joining FORMAT strings *)

Lemma split_nonempty (sep : ascii) (s : string) : split sep s ≠ [].
Proof.
  destruct s as [|c s]; simpl; [done|].
  case_decide; [done|]. by destruct (split sep s).
Qed.

(** The pieces of a split contain no separator: splitting one again gives
    it back. *)
Lemma split_piece (sep : ascii) (s w : string) :
  w ∈ split sep s → split sep w = [w].
Proof.
  revert w. induction s as [|c s IH]; intros w; simpl.
  - by intros ->%list_elem_of_singleton.
  - case_decide as Hc.
    + intros [->|Hin]%elem_of_cons; [done|by apply IH].
    + destruct (split sep s) as [|h t] eqn:Hs; [by destruct (split_nonempty sep s)|].
      intros [->|Hin]%elem_of_cons.
      * simpl. rewrite decide_False by done.
        rewrite (IH h) by (by left). done.
      * apply IH. by right.
Qed.

Lemma split_app_sep (sep : ascii) (w rest : string) :
  split sep w = [w] →
  split sep (w +:+ String sep rest) = w :: split sep rest.
Proof.
  induction w as [|c w IH]; simpl.
  - intros _. by rewrite decide_True.
  - case_decide as Hc; [intros [= _ Habs]; by destruct (split_nonempty sep w)|].
    destruct (split sep w) as [|h t] eqn:Hw; [by destruct (split_nonempty sep w)|].
    intros [= -> ->]. by rewrite IH.
Qed.

Lemma split_join (sep : ascii) (l : list string) :
  l ≠ [] → (∀ w, w ∈ l → split sep w = [w]) →
  split sep (join (String sep EmptyString) l) = l.
Proof.
  induction l as [|w l IH]; [done|]. intros _ Hpieces.
  destruct l as [|w' l].
  - simpl. apply Hpieces. by left.
  - change (join (String sep EmptyString) (w :: w' :: l))
      with (w +:+ String sep EmptyString +:+ join (String sep EmptyString) (w' :: l)).
    change (String sep EmptyString +:+ ?x) with (String sep x).
    rewrite split_app_sep by (apply Hpieces; by left).
    rewrite IH; [done|done|]. intros w0 Hw0. apply Hpieces. by right.
Qed.

(** ** Finding a sample's call *)

Lemma sample_index_None (names : list string) (name : string) :
  sample_index names name = None → ∀ j, names !! j ≠ Some name.
Proof.
  induction names as [|n rest IH]; simpl; [by intros _ j|].
  destruct (sample_index rest name); [done|]. case_decide as Hn; [done|].
  intros _ [|j]; simpl; [by intros [= ->]|by apply IH].
Qed.

Lemma sample_index_last (names : list string) (name : string) (i : nat) :
  sample_index names name = Some i →
  names !! i = Some name ∧ ∀ j, (i < j)%nat → names !! j ≠ Some name.
Proof.
  revert i. induction names as [|n rest IH]; intros i; simpl; [done|].
  destruct (sample_index rest name) as [i'|] eqn:Hrest.
  - intros [= <-]. destruct (IH i' eq_refl) as [Hi' Hlast]. split; [done|].
    intros [|j] Hj; [lia|]. simpl. apply Hlast. lia.
  - case_decide as Hn; [|done]. intros [= <-]. subst n. split; [done|].
    intros [|j] Hj; [lia|]. simpl. by apply sample_index_None.
Qed.

(** [genotype] returns the call at the position the name has in the
    header, the last one if the header repeats the name. *)
Lemma genotype_Returned (names : list string) (r : vcf_record) (name : string) (c : call) :
  genotype names r name = Returned c →
  ∃ i, names !! i = Some name ∧ (∀ j, (i < j)%nat → names !! j ≠ Some name) ∧
       samples r !! i = Some c ∧
       (sample <$> samples r = names → sample c = name).
Proof.
  unfold genotype. destruct (sample_index names name) as [i|] eqn:Hi; [|done].
  destruct (samples r !! i) as [c'|] eqn:Hc; [|done]. intros [= <-].
  apply sample_index_last in Hi as [Hi Hlast].
  exists i. split_and!; [done|done|done|].
  intros <-. rewrite list_lookup_fmap, Hc in Hi. by injection Hi.
Qed.

(** ** The merged record *)

Lemma outcome_bind_Returned {A B} (m : outcome A) (f : A → outcome B) (b : B) :
  m ≫= f = Returned b → ∃ a, m = Returned a ∧ f a = Returned b.
Proof. destruct m as [a|e]; [by exists a|done]. Qed.

Lemma keys_zip (ks : list string) (vs : list pyval) :
  length ks = length vs → keys (zip ks vs) = ks.
Proof. intros Hlen. unfold keys. apply fst_zip. lia. Qed.

(** Looking a field up in a tuple built field by field. *)
Lemma dict_get_zip (f : string → outcome pyval) (ks : list string) (vs : list pyval)
    (key : string) :
  Forall2 (λ k v, f k = Returned v) ks vs → key ∈ ks →
  ∃ v, dict_get key (zip ks vs) = Some v ∧ f key = Returned v.
Proof.
  induction 1 as [|k v ks vs Hkv _ IH]; [by intros ?%elem_of_nil|].
  simpl. case_decide as Hk.
  - subst. intros _. by exists v.
  - intros [->|Hin]%elem_of_cons; [done|by apply IH].
Qed.

Section Merge.

Variables isidentifier iskeyword : string → bool.
Variable keep_LLs : bool.
Variables gt_formats ll_formats : dict format_info.
Variable ll_samples : list string.
Variable all_ll_samples : gset string.

Lemma check_field_names_NoDup (seen : gset string) (names : list string) :
  check_field_names seen names = Returned tt →
  NoDup names ∧ ∀ n, n ∈ names → n ∉ seen.
Proof.
  revert seen. induction names as [|name later IH]; intros seen; simpl.
  - intros _. split; [constructor|]. by intros n ?%elem_of_nil.
  - destruct (String.prefix "_" name); [done|].
    case_bool_decide as Hseen; [done|].
    intros [Hnd Hfresh]%IH. split.
    + constructor; [|done]. intros Hin. apply (Hfresh _ Hin). set_solver.
    + intros n [->|Hin]%elem_of_cons; [done|]. specialize (Hfresh _ Hin). set_solver.
Qed.

Lemma make_calldata_tuple_Returned (fields : list string) (t : calldata_tuple) :
  make_calldata_tuple isidentifier iskeyword fields = Returned t →
  t = {| _fields := fields; _types := []; _nums := [] |} ∧ NoDup fields.
Proof.
  unfold make_calldata_tuple.
  intros ([] & _ & ([] & Hnames & [= <-])%outcome_bind_Returned)%outcome_bind_Returned.
  split; [done|]. by apply check_field_names_NoDup in Hnames as [? _].
Qed.

Lemma field_origins_Returned (gt_fields todo : list string)
    (samp_fmt samp_fmt' : calldata_tuple) (acc in_gt : list bool) :
  field_origins gt_formats ll_formats gt_fields todo samp_fmt acc
    = Returned (samp_fmt', in_gt) →
  _fields samp_fmt' = _fields samp_fmt ∧
  in_gt = acc ++ ((λ f, bool_decide (f ∈ gt_fields)) <$> todo).
Proof.
  revert samp_fmt acc. induction todo as [|f todo IH]; intros samp_fmt acc; simpl.
  - intros [= <- <-]. by rewrite app_nil_r.
  - destruct (dict_get f _) as [entry|]; [|done].
    intros [Hf ->]%IH. simpl in Hf. by rewrite <-app_assoc.
Qed.

Lemma sampdat_loop_Returned (s : call) (ll_sample : option call)
    (fields : list string) (from_gt : string → bool) (n k : nat)
    (acc vals : list pyval) :
  (k + n)%nat = length fields →
  sampdat_loop s ll_sample fields (from_gt <$> fields) (seq k n) acc = Returned vals →
  ∃ vs, vals = acc ++ vs ∧
        Forall2 (λ key v, field_value s ll_sample key (from_gt key) = Returned v)
                (drop k fields) vs.
Proof.
  revert k acc. induction n as [|n IH]; intros k acc Hk; simpl.
  - intros [= <-]. exists []. rewrite app_nil_r, drop_ge by lia. by split.
  - destruct (lookup_lt_is_Some_2 fields k) as [key Hkey]; [lia|].
    rewrite list_lookup_fmap, Hkey. simpl.
    intros (v & Hv & (vs & -> & Hvs)%IH)%outcome_bind_Returned; [|lia].
    exists (v :: vs). rewrite <-app_assoc. split; [done|].
    rewrite (drop_S _ _ _ Hkey). by constructor.
Qed.

Lemma new_samples_loop_Returned (ll_rec : vcf_record) (samp_fmt : calldata_tuple)
    (in_gt : list bool) (todo acc new_samples : list call) :
  new_samples_loop ll_samples all_ll_samples ll_rec samp_fmt in_gt todo acc
    = Returned new_samples →
  ∃ cs, new_samples = acc ++ cs ∧
        Forall2 (λ s c, new_call ll_samples all_ll_samples ll_rec samp_fmt in_gt s
                          = Returned c) todo cs.
Proof.
  revert acc. induction todo as [|s todo IH]; intros acc; simpl.
  - intros [= <-]. exists []. by rewrite app_nil_r.
  - intros (c & Hc & (cs & -> & Hcs)%IH)%outcome_bind_Returned.
    exists (c :: cs). rewrite <-app_assoc. split; [done|by constructor].
Qed.

Lemma merged_fields_origin (gt_fields denovo_fields : list string) (key : string) :
  key ∈ merged_fields keep_LLs gt_fields denovo_fields →
  key ∈ gt_fields ∨ key ∈ denovo_fields.
Proof.
  unfold merged_fields. destruct keep_LLs.
  - by rewrite elem_of_app.
  - rewrite list_elem_of_filter, elem_of_app. tauto.
Qed.

(** A tuple without repeated names has no name from both records. *)
Lemma merged_fields_one_origin (gt_fields denovo_fields : list string) (key : string) :
  NoDup (merged_fields keep_LLs gt_fields denovo_fields) →
  key ∈ merged_fields keep_LLs gt_fields denovo_fields →
  key ∈ gt_fields → key ∉ denovo_fields.
Proof.
  unfold merged_fields. destruct keep_LLs.
  - intros (_ & Hdisj & _)%NoDup_app _ Hgt. by apply Hdisj.
  - rewrite filter_app. intros (_ & Hdisj & _)%NoDup_app.
    rewrite elem_of_app, !list_elem_of_filter. intros Hkey Hgt Hll.
    apply (Hdisj key); rewrite list_elem_of_filter; tauto.
Qed.

Lemma new_call_resolved (ll_rec : vcf_record) (gt_fields denovo_fields : list string)
    (types : list string) (nums : list (option Z)) (s c : call) :
  let fields := merged_fields keep_LLs gt_fields denovo_fields in
  NoDup fields →
  new_call ll_samples all_ll_samples ll_rec
    {| _fields := fields; _types := types; _nums := nums |}
    ((λ f, bool_decide (f ∈ gt_fields)) <$> fields) s = Returned c →
  sample_resolved all_ll_samples ll_samples ll_rec gt_fields denovo_fields fields s c.
Proof.
  intros fields Hnd. unfold new_call. simpl.
  intros (ll_sample & Hll & (vals & Hvals & [= <-])%outcome_bind_Returned)
    %outcome_bind_Returned.
  apply sampdat_loop_Returned in Hvals as (vs & -> & Hvs); [|done].
  rewrite drop_0 in Hvs. simpl.
  split_and!; [done|by apply keys_zip, (Forall2_length _ _ _ Hvs)|].
  intros key Hkey.
  destruct (dict_get_zip _ _ _ _ Hvs Hkey) as (v & Hget & Hv).
  assert (call_getitem {| sample := sample s; data := zip fields vs |} key = Returned v)
    as Hc by (unfold call_getitem; simpl; by rewrite Hget).
  unfold field_value in Hv. case_bool_decide as Hgt.
  - left. split_and!; [done|by eapply merged_fields_one_origin|by exists v].
  - right. split_and!; [done|by destruct (merged_fields_origin _ _ _ Hkey)|].
    case_bool_decide as Hknown.
    + right. split; [done|].
      destruct (genotype ll_samples ll_rec (sample s)) as [c0|] eqn:Hc0; [|done].
      injection Hll as <-.
      apply genotype_Returned in Hc0 as (i & Hi & Hlast & Hc0 & Hname).
      by exists i, c0, v.
    + left. injection Hll as <-. by injection Hv as <-.
Qed.

Lemma build_record_Returned (gt_record ll_rec r : vcf_record)
    (gt_fields denovo_fields : list string) :
  let fields := merged_fields keep_LLs gt_fields denovo_fields in
  build_record isidentifier iskeyword keep_LLs gt_formats ll_formats ll_samples
    all_ll_samples gt_record ll_rec gt_fields denovo_fields = Returned r →
  FORMAT r = join ":" fields ∧
  Forall2 (sample_resolved all_ll_samples ll_samples ll_rec gt_fields denovo_fields fields)
          (samples gt_record) (samples r).
Proof.
  intros fields. unfold build_record. fold fields.
  intros (t & [-> Hnd]%make_calldata_tuple_Returned & Hrest)%outcome_bind_Returned.
  apply outcome_bind_Returned in Hrest as ([t' in_gt] & Horig & Hrest).
  apply field_origins_Returned in Horig as [Hfields ->]. simpl in *.
  apply outcome_bind_Returned in Hrest as (cs & Hcs & [= <-]).
  apply new_samples_loop_Returned in Hcs as (cs' & -> & Hcs). simpl.
  split; [done|].
  eapply Forall2_impl; [exact Hcs|]. intros s c Hc.
  destruct t' as [fields' types nums]. simpl in Hfields. subst fields'.
  by eapply new_call_resolved.
Qed.

Lemma merge_record_Returned (gt_record ll_rec r : vcf_record) :
  merge_record isidentifier iskeyword keep_LLs gt_formats ll_formats ll_samples
    all_ll_samples gt_record ll_rec = Returned r →
  same_variant gt_record ll_rec ∧
  build_record isidentifier iskeyword keep_LLs gt_formats ll_formats ll_samples
    all_ll_samples gt_record ll_rec
    (split colon (FORMAT gt_record)) (split colon (FORMAT ll_rec)) = Returned r.
Proof.
  unfold merge_record.
  intros ([] & Hmatch%records_match_Returned & Hrest)%outcome_bind_Returned.
  split; [done|].
  by rewrite decide_False in Hrest by (rewrite length_app; lia).
Qed.

(** The test of line 66 never fires: the length of a concatenation is the
    sum of the lengths. *)
Lemma merge_record_unchecked (gt_record ll_rec : vcf_record) :
  merge_record isidentifier iskeyword keep_LLs gt_formats ll_formats ll_samples
    all_ll_samples gt_record ll_rec =
  (records_match gt_record ll_rec;;
   build_record isidentifier iskeyword keep_LLs gt_formats ll_formats ll_samples
     all_ll_samples gt_record ll_rec
     (split colon (FORMAT gt_record)) (split colon (FORMAT ll_rec))).
Proof.
  unfold merge_record.
  by rewrite decide_False by (rewrite length_app; lia).
Qed.

End Merge.

(** ** What the loop writes *)

Section Run.

Variables isidentifier iskeyword : string → bool.
Variable keep_LLs : bool.
Variables gt_formats ll_formats : dict format_info.
Variable ll_samples : list string.
Variable all_ll_samples : gset string.

Let body : vcf_record → M unit :=
  loop_body isidentifier iskeyword keep_LLs gt_formats ll_formats
    ll_samples all_ll_samples.

Let merge : vcf_record → vcf_record → outcome vcf_record :=
  merge_record isidentifier iskeyword keep_LLs gt_formats ll_formats
    ll_samples all_ll_samples.

(** The likelihood records an iteration can still see. *)
Local Abbreviation avail st := (option_list (ll_record st) ++ ll_pending st).

(** An iteration writes at most one line, the merge of its genotype
    record with a likelihood record it could see, and never puts a
    likelihood record back. *)
Lemma body_step (gt_record : vcf_record) (st : proc) :
  ∃ new, stdout (body gt_record st).2 = stdout st ++ (Line <$> new) ∧
         Forall (λ r, ∃ ll_rec, ll_rec ∈ avail st ∧ merge gt_record ll_rec = Returned r) new ∧
         ∀ ll_rec, ll_rec ∈ avail (body gt_record st).2 → ll_rec ∈ avail st.
Proof.
  assert (∀ ll_rec pending out,
    let st := {| ll_record := Some ll_rec; ll_pending := pending; stdout := out |} in
    ∃ new, stdout (body gt_record st).2 = out ++ (Line <$> new) ∧
           Forall (λ r, merge gt_record ll_rec = Returned r) new ∧
           ∀ ll_rec', ll_rec' ∈ avail (body gt_record st).2 → ll_rec' ∈ ll_rec :: pending)
    as Hbuffered.
  { intros ll_rec pending out st0. unfold st0, body.
    rewrite body_buffered. fold merge. destruct (_ || _).
    - exists []. simpl. by rewrite app_nil_r.
    - destruct (merge gt_record ll_rec) as [merged|e] eqn:Hmerge.
      + exists [merged]. simpl. split_and!; [done|by constructor|].
        intros ll_rec' Hin. by right.
      + exists []. simpl. by rewrite app_nil_r. }
  destruct st as [[ll_rec|] pending out].
  - destruct (Hbuffered ll_rec pending out) as (new & Hout & Hnew & Hav).
    exists new. split_and!; [done| |done].
    eapply Forall_impl; [exact Hnew|]. intros r Hr. exists ll_rec. split; [by left|done].
  - destruct pending as [|ll_rec pending].
    + exists []. simpl. by rewrite app_nil_r.
    + unfold body. rewrite body_refill. fold body.
      destruct (Hbuffered ll_rec pending out) as (new & Hout & Hnew & Hav).
      exists new. split_and!; [done| |done].
      eapply Forall_impl; [exact Hnew|]. intros r Hr. exists ll_rec. split; [by left|done].
Qed.

Lemma for_each_lines (gt_records : list vcf_record) (st : proc) :
  ∃ new, stdout (for_each body gt_records st).2 = stdout st ++ (Line <$> new) ∧
         Forall (λ r, ∃ gt_record ll_rec, gt_record ∈ gt_records ∧ ll_rec ∈ avail st ∧
                                          merge gt_record ll_rec = Returned r) new.
Proof.
  revert st. induction gt_records as [|gt_record later IH]; intros st.
  - exists []. simpl. by rewrite app_nil_r.
  - rewrite for_each_cons.
    destruct (body_step gt_record st) as (new & Hout & Hnew & Hav).
    destruct (body gt_record st) as [[[]|e] st1]; simpl in *.
    + destruct (IH st1) as (new' & Hout' & Hnew').
      exists (new ++ new'). rewrite Hout', Hout, fmap_app, <-app_assoc. split; [done|].
      apply Forall_app. split.
      * eapply Forall_impl; [exact Hnew|]. intros r (ll_rec & Hll & Hr).
        exists gt_record, ll_rec. split_and!; [by left|done|done].
      * eapply Forall_impl; [exact Hnew'|]. intros r (gt' & ll_rec & Hgt' & Hll & Hr).
        exists gt', ll_rec. split_and!; [by right|by apply Hav|done].
    + exists new. split; [done|].
      eapply Forall_impl; [exact Hnew|]. intros r (ll_rec & Hll & Hr).
      exists gt_record, ll_rec. split_and!; [by left|done|done].
Qed.

End Run.

(** Every line [main] writes is the merge of a genotype record with a
    likelihood record, under the FORMAT declarations left by the
    initialisation. *)
Lemma main_lines (isidentifier iskeyword : string → bool) (keep_LLs : bool)
    (gt_vcf_reader ll_vcf_reader : reader) (r : vcf_record) :
  Line r ∈ stdout (main isidentifier iskeyword keep_LLs gt_vcf_reader ll_vcf_reader).2 →
  ∃ gt_formats gt_record ll_rec,
    unify_formats (formats ll_vcf_reader) (formats gt_vcf_reader) = Returned gt_formats ∧
    gt_record ∈ stream gt_vcf_reader ∧ ll_rec ∈ stream ll_vcf_reader ∧
    merge_record isidentifier iskeyword keep_LLs gt_formats (formats ll_vcf_reader)
      (reader_samples ll_vcf_reader) (list_to_set (reader_samples ll_vcf_reader))
      gt_record ll_rec = Returned r.
Proof.
  unfold main. case_decide; [by intros ?%elem_of_nil|].
  unfold mbind at 1, M_bind, lift.
  destruct (unify_formats _ _) as [gt_formats|e]; [|by intros ?%elem_of_nil].
  unfold mbind, M_bind, open_writer. simpl.
  match goal with |- context [for_each ?f ?l ?st] =>
    destruct (for_each_lines isidentifier iskeyword keep_LLs gt_formats
                (formats ll_vcf_reader) (reader_samples ll_vcf_reader)
                (list_to_set (reader_samples ll_vcf_reader)) l st)
      as (new & Hout & Hnew)
  end.
  simpl in Hout. rewrite Hout.
  intros [[=]|Hin%list_elem_of_fmap]%elem_of_cons.
  destruct Hin as (r' & [= <-] & Hr).
  rewrite Forall_forall in Hnew.
  destruct (Hnew r Hr) as (gt_record & ll_rec & Hgt & Hll & Hmerge).
  by exists gt_formats, gt_record, ll_rec.
Qed.

(** ** The records written by [main] *)

(** C7. Every record [main] writes pairs a genotype record with a
    likelihood record of the same variant, and each of its calls is
    resolved from the genotype call in the same position: a field of the
    genotype record's FORMAT has the genotype call's value; every other
    field is a field of the likelihood record's FORMAT and has the
    missing-value marker ["."] when the sample is not in the likelihood
    file's sample set, and otherwise the value of the sample's own call in
    the likelihood record, the one at the position of the sample's name in
    the likelihood header. *)
Theorem emitted_samples_resolved (isidentifier iskeyword : string → bool)
    (keep_LLs : bool) (gt_vcf_reader ll_vcf_reader : reader) (r : vcf_record) :
  Line r ∈ stdout (main isidentifier iskeyword keep_LLs gt_vcf_reader ll_vcf_reader).2 →
  ∃ gt_record ll_rec,
    gt_record ∈ stream gt_vcf_reader ∧ ll_rec ∈ stream ll_vcf_reader ∧
    same_variant gt_record ll_rec ∧
    Forall2 (sample_resolved (list_to_set (reader_samples ll_vcf_reader))
               (reader_samples ll_vcf_reader) ll_rec
               (split colon (FORMAT gt_record)) (split colon (FORMAT ll_rec))
               (merged_fields keep_LLs (split colon (FORMAT gt_record))
                  (split colon (FORMAT ll_rec))))
            (samples gt_record) (samples r).
Proof.
  intros (gt_formats & gt_record & ll_rec & _ & Hgt & Hll & Hmerge)%main_lines.
  apply merge_record_Returned in Hmerge as [Hsame Hbuild].
  apply build_record_Returned in Hbuild as [_ Hcalls].
  by exists gt_record, ll_rec.
Qed.

Lemma emitted_samples_resolved_witness :
  ∃ gt_record ll_rec,
    gt_record ∈ stream gt_three_samples ∧ ll_rec ∈ stream ll_two_samples ∧
    same_variant gt_record ll_rec ∧
    Forall2 (sample_resolved (list_to_set (reader_samples ll_two_samples))
               (reader_samples ll_two_samples) ll_rec
               (split colon (FORMAT gt_record)) (split colon (FORMAT ll_rec))
               (merged_fields false (split colon (FORMAT gt_record))
                  (split colon (FORMAT ll_rec))))
            (samples gt_record) (samples merged_three_samples).
Proof.
  apply (emitted_samples_resolved ascii_isidentifier py3_iskeyword false
           gt_three_samples ll_two_samples merged_three_samples).
  vm_compute. right. left.
Defined.

(** The likelihood header lists [s2] before [s1]: each sample still gets
    its own likelihood, and [s3], which the likelihood file does not know,
    gets the marker. *)
Example samples_in_another_order :
  stdout (main3 false gt_three_samples ll_two_samples).2 =
    [Header ["s1"; "s2"; "s3"] (formats gt_three_samples ++ formats ll_two_samples);
     Line merged_three_samples].
Proof. by vm_compute. Qed.

(** C8. For every record [main] writes, the FORMAT column is the join of
    the merged field list of the pair it was built from. Without
    [--keep-gls] that list is the concatenation of the genotype fields and
    the likelihood fields with [GL], [PL] and [PHASEDGL] filtered out, and
    none of the three is among the fields of the written FORMAT; with
    [--keep-gls] the fields of the written FORMAT are exactly the genotype
    fields followed by the likelihood fields. *)
Theorem likelihood_fields_policy (isidentifier iskeyword : string → bool)
    (keep_LLs : bool) (gt_vcf_reader ll_vcf_reader : reader) (r : vcf_record) :
  Line r ∈ stdout (main isidentifier iskeyword keep_LLs gt_vcf_reader ll_vcf_reader).2 →
  ∃ gt_record ll_rec,
    gt_record ∈ stream gt_vcf_reader ∧ ll_rec ∈ stream ll_vcf_reader ∧
    let gt_fields := split colon (FORMAT gt_record) in
    let denovo_fields := split colon (FORMAT ll_rec) in
    FORMAT r = join ":" (merged_fields keep_LLs gt_fields denovo_fields) ∧
    (keep_LLs = false →
     merged_fields keep_LLs gt_fields denovo_fields
       = filter (λ x, x ∉ excluded_fields) (gt_fields ++ denovo_fields) ∧
     ∀ x, x ∈ excluded_fields → x ∉ split colon (FORMAT r)) ∧
    (keep_LLs = true → split colon (FORMAT r) = gt_fields ++ denovo_fields).
Proof.
  intros (gt_formats & gt_record & ll_rec & _ & Hgt & Hll & Hmerge)%main_lines.
  apply merge_record_Returned in Hmerge as [_ Hbuild].
  apply build_record_Returned in Hbuild as [Hformat _].
  exists gt_record, ll_rec. split_and!; [done|done|]. intros gt_fields denovo_fields.
  fold gt_fields denovo_fields in Hformat.
  assert (∀ w, w ∈ gt_fields ++ denovo_fields → split colon w = [w]) as Hpieces.
  { intros w [Hw|Hw]%elem_of_app; by eapply split_piece. }
  split_and!; [done| |].
  - intros ->. simpl in *. split; [done|]. intros x Hx. rewrite Hformat.
    destruct (filter (λ x, x ∉ excluded_fields) (gt_fields ++ denovo_fields))
      as [|w ws] eqn:Hfields.
    + simpl. intros ->%list_elem_of_singleton.
      unfold excluded_fields in Hx. set_solver.
    + change ":"%string with (String colon EmptyString).
      rewrite split_join, <-Hfields; [|done|].
      * rewrite list_elem_of_filter. tauto.
      * intros w0 Hw0. apply Hpieces. rewrite <-Hfields in Hw0.
        by apply list_elem_of_filter in Hw0 as [_ ?].
  - intros ->. simpl in *. rewrite Hformat.
    change ":"%string with (String colon EmptyString).
    apply split_join; [|done].
    pose proof (split_nonempty colon (FORMAT gt_record)). fold gt_fields in H.
    by destruct gt_fields.
Qed.

Lemma likelihood_fields_policy_witness :
  (∃ gt_record ll_rec,
     gt_record ∈ stream gt_only_GL ∧ ll_rec ∈ stream ll_only_s1 ∧
     FORMAT merged_without_GL
       = join ":" (merged_fields false (split colon (FORMAT gt_record))
                     (split colon (FORMAT ll_rec))) ∧
     ∀ x, x ∈ excluded_fields → x ∉ split colon (FORMAT merged_without_GL)) ∧
  (∃ gt_record ll_rec,
     gt_record ∈ stream gt_only_GL ∧ ll_rec ∈ stream ll_only_s1 ∧
     split colon (FORMAT merged_with_GL)
       = split colon (FORMAT gt_record) ++ split colon (FORMAT ll_rec)).
Proof.
  split.
  - destruct (likelihood_fields_policy ascii_isidentifier py3_iskeyword false
                gt_only_GL ll_only_s1 merged_without_GL)
      as (gt_record & ll_rec & Hgt & Hll & Hformat & Hdrop & _).
    + vm_compute. right. left.
    + exists gt_record, ll_rec. split_and!; [done|done|done|].
      by destruct (Hdrop eq_refl).
  - destruct (likelihood_fields_policy ascii_isidentifier py3_iskeyword true
                gt_only_GL ll_only_s1 merged_with_GL)
      as (gt_record & ll_rec & Hgt & Hll & _ & _ & Hkeep).
    + vm_compute. right. left.
    + exists gt_record, ll_rec. split_and!; [done|done|]. by apply Hkeep.
Defined.

(** ** Two runs the specification describes differently *)

(** C4. The likelihood file ends after position 100 while the genotype file
    has one more record: the first pair is written, then refilling the
    lookahead raises [StopIteration], which nothing catches. The run does
    not skip the remaining record and does not end normally. *)
Theorem exhausted_likelihoods_raise :
  main3 false gt_two_sites ll_one_site =
    (Raised StopIteration,
     {| ll_record := None; ll_pending := [];
        stdout := [Header ["s1"] (formats gt_two_sites ++ formats ll_one_site);
                   Line (merged_site "chr1" 100)] |}).
Proof. by vm_compute. Qed.

(** The same happens at the first record when the likelihood file has no
    record at all. *)
Example empty_likelihoods_raise :
  (main3 false gt_two_sites (ll_file [])).1 = Raised StopIteration.
Proof. by vm_compute. Qed.

(** C5. [GL] is a field of both records, so the concatenation of the two
    field lists repeats a name; the duplicate check lets it through, and
    the default run filters [GL] out and writes the merged record. *)
Theorem duplicated_GL_is_written :
  ∃ gt_record ll_rec,
    stream gt_with_GL = [gt_record] ∧ stream ll_with_GL = [ll_rec] ∧
    "GL" ∈ split colon (FORMAT gt_record) ∧ "GL" ∈ split colon (FORMAT ll_rec) ∧
    ¬ NoDup (split colon (FORMAT gt_record) ++ split colon (FORMAT ll_rec)) ∧
    main3 false gt_with_GL ll_with_GL =
      (Returned tt,
       {| ll_record := None; ll_pending := [];
          stdout := [Header ["s1"] (formats gt_with_GL ++ formats ll_with_GL);
                     Line (site "chr1" 100 "GT:DNM_LL"
                             [("GT", PyStr "0/1"); ("DNM_LL", PyFloat "-2.3")])] |}).
Proof.
  eexists _, _. split_and!; [reflexivity|reflexivity| | | |by vm_compute].
  - vm_compute. right. left.
  - vm_compute. left.
  - vm_compute. intros Hnd. apply NoDup_cons in Hnd as [_ Hnd].
    apply NoDup_cons in Hnd as [Hnin _]. apply Hnin. left.
Qed.

(** With [--keep-gls] the repeated name reaches [namedtuple], which raises
    a [ValueError]: still not the exit of line 67. *)
Example duplicated_GL_kept :
  (main3 true gt_with_GL ll_with_GL).1 = Raised (ValueError (DuplicateFieldName "GL")).
Proof. by vm_compute. Qed.

(** The end-to-end scenario of the specification: fields [GT], [DP] and
    [DNM_LL], values ["0/1"], [30] and [-2.3] for sample [s1]. *)
Example matching_sites_merged :
  main3 false (gt_file [gt_site "chr1" 100]) (ll_file [ll_site "chr1" 100]) =
    (Returned tt,
     {| ll_record := None; ll_pending := [];
        stdout := [Header ["s1"] (formats (gt_file []) ++ formats (ll_file []));
                   Line (merged_site "chr1" 100)] |}).
Proof. by vm_compute. Qed.

(** The skip scenario: the genotype record at 100 is passed over and the
    likelihood record at 150 waits for the genotype record at 150. *)
Example earlier_site_skipped :
  main3 false (gt_file [gt_site "chr1" 100; gt_site "chr1" 150])
    (ll_file [ll_site "chr1" 150]) =
    (Returned tt,
     {| ll_record := None; ll_pending := [];
        stdout := [Header ["s1"] (formats (gt_file []) ++ formats (ll_file []));
                   Line (merged_site "chr1" 150)] |}).
Proof. by vm_compute. Qed.

(** * Further properties of the script *)

(** ** Which mismatch [records_match] reports *)

(** X1. [records_match] reports the first difference in the order chromosome,
    position, identifier, reference allele, alternate alleles: a later
    component is only looked at when all the earlier ones agree. *)
Theorem records_match_first_mismatch (rec_a rec_b : vcf_record) :
  (CHROM rec_a ≠ CHROM rec_b → records_match rec_a rec_b = exit chrom_mismatch) ∧
  (CHROM rec_a = CHROM rec_b → POS rec_a ≠ POS rec_b →
   records_match rec_a rec_b = exit pos_mismatch) ∧
  (CHROM rec_a = CHROM rec_b → POS rec_a = POS rec_b → ID rec_a ≠ ID rec_b →
   records_match rec_a rec_b = exit id_mismatch) ∧
  (CHROM rec_a = CHROM rec_b → POS rec_a = POS rec_b → ID rec_a = ID rec_b →
   REF rec_a ≠ REF rec_b → records_match rec_a rec_b = exit ref_mismatch) ∧
  (CHROM rec_a = CHROM rec_b → POS rec_a = POS rec_b → ID rec_a = ID rec_b →
   REF rec_a = REF rec_b → str <$> ALT rec_a ≠ str <$> ALT rec_b →
   records_match rec_a rec_b = exit alt_mismatch).
Proof.
  unfold records_match. split_and!.
  - intros Hc. by rewrite decide_True.
  - intros Hc Hp. rewrite decide_False by (intros ?; congruence). by rewrite decide_True.
  - intros Hc Hp Hi. rewrite !decide_False by (intros ?; congruence). by rewrite decide_True.
  - intros Hc Hp Hi Hr. rewrite !decide_False by (intros ?; congruence).
    by rewrite decide_True.
  - intros Hc Hp Hi Hr Ha. rewrite !decide_False by (intros ?; congruence).
    destruct (decide (length (ALT rec_a) ≠ length (ALT rec_b))) as [|Hlen]; [done|].
    apply dec_stable in Hlen.
    rewrite alt_loop_seq by (done || lia). rewrite !drop_0. by rewrite decide_False.
Qed.

Lemma records_match_first_mismatch_witness :
  records_match (gt_site "chr2" 7) (ll_site "chr1" 100) = exit chrom_mismatch ∧
  records_match (gt_site "chr1" 7) (ll_site "chr1" 100) = exit pos_mismatch ∧
  records_match (gt_site "chr1" 100)
    {| CHROM := "chr1"; POS := 100; ID := None; REF := "C"; ALT := [];
       FORMAT := "DNM_LL"; samples := [] |} = exit id_mismatch ∧
  records_match (gt_site "chr1" 100)
    {| CHROM := "chr1"; POS := 100; ID := Some "rs1"; REF := "C"; ALT := [];
       FORMAT := "DNM_LL"; samples := [] |} = exit ref_mismatch ∧
  records_match (gt_site "chr1" 100)
    {| CHROM := "chr1"; POS := 100; ID := Some "rs1"; REF := "A"; ALT := [];
       FORMAT := "DNM_LL"; samples := [] |} = exit alt_mismatch.
Proof.
  split_and!.
  - apply records_match_first_mismatch. discriminate.
  - apply records_match_first_mismatch; [reflexivity|discriminate].
  - apply records_match_first_mismatch; [reflexivity|reflexivity|discriminate].
  - apply records_match_first_mismatch; [reflexivity|reflexivity|reflexivity|discriminate].
  - apply records_match_first_mismatch;
      [reflexivity|reflexivity|reflexivity|reflexivity|discriminate].
Defined.

(** ** The unified FORMAT declarations *)

Lemma keys_app {V} (d1 d2 : dict V) : keys (d1 ++ d2) = keys d1 ++ keys d2.
Proof. unfold keys. apply fmap_app. Qed.

Lemma dict_get_None {V} (k : string) (d : dict V) : dict_get k d = None ↔ k ∉ keys d.
Proof.
  induction d as [|[k' v] d IH]; simpl.
  - split; [intros _; apply not_elem_of_nil|done].
  - rewrite not_elem_of_cons. case_decide; [subst|]; naive_solver.
Qed.

Lemma dict_get_is_Some {V} (k : string) (d : dict V) : k ∈ keys d → is_Some (dict_get k d).
Proof.
  intros Hin. destruct (dict_get k d) eqn:Hget; [done|].
  by apply dict_get_None in Hget.
Qed.

Lemma dict_get_app {V} (k : string) (d1 d2 : dict V) :
  dict_get k (d1 ++ d2) =
    match dict_get k d1 with Some v => Some v | None => dict_get k d2 end.
Proof.
  induction d1 as [|[k' v] d1 IH]; simpl; [done|]. by case_decide.
Qed.

Lemma unify_formats_Returned (S P U : dict format_info) :
  unify_formats S P = Returned U →
  dict_wf S ∧ (∀ k, k ∈ keys S → k ∉ keys P) ∧ U = P ++ S.
Proof.
  unfold dict_wf. revert P. induction S as [|[k v] S IH]; intros P; simpl.
  - intros [= <-]. split_and!; [constructor|by intros k ?%elem_of_nil|by rewrite app_nil_r].
  - destruct (dict_mem k P) eqn:Hmem; [done|]. apply dict_mem_false in Hmem.
    rewrite dict_set_fresh by done.
    intros (Hwf & Hdisj & ->)%IH. rewrite <-app_assoc. split_and!; [|  |done].
    + constructor; [|done]. intros Hk. apply (Hdisj k Hk). rewrite keys_app. set_solver.
    + intros k' [->|Hk']%elem_of_cons; [done|].
      intros HP. apply (Hdisj k' Hk'). rewrite keys_app. set_solver.
Qed.

(** X2. The loop of lines 42-45 succeeds exactly when the likelihood names are
    distinct from the genotype names, and it then leaves the genotype
    declarations untouched and in place, followed by the likelihood
    declarations in their order: it never overwrites a declaration. *)
Theorem unify_formats_success (S P U : dict format_info) :
  unify_formats S P = Returned U ↔
  dict_wf S ∧ (∀ k, k ∈ keys S → k ∉ keys P) ∧ U = P ++ S.
Proof.
  split; [apply unify_formats_Returned|].
  intros (Hwf & Hdisj & ->). by apply unify_formats_disjoint.
Qed.

Lemma unify_formats_success_witness :
  unify_formats (formats ll_only_s1) (formats gt_only_GL)
    = Returned (formats gt_only_GL ++ formats ll_only_s1).
Proof.
  apply unify_formats_success. split_and!; [|  |reflexivity].
  - unfold dict_wf. simpl. apply NoDup_singleton.
  - simpl. intros k Hk%list_elem_of_singleton Hin. subst k.
    repeat (apply elem_of_cons in Hin as [Hin|Hin]; [discriminate|]).
    by apply elem_of_nil in Hin.
Defined.

(** The loop exits on the first likelihood name, in the order of the
    likelihood header, that the genotype header declares as well; the
    names after it are not examined. *)
Lemma unify_formats_first_collision (S1 S2 P : dict format_info)
    (k : string) (v : format_info) :
  dict_wf S1 → (∀ k', k' ∈ keys S1 → k' ∉ keys P) → k ∈ keys P →
  unify_formats (S1 ++ (k, v) :: S2) P = Raised (FieldCollisionError k).
Proof.
  unfold dict_wf. revert P. induction S1 as [|[k1 v1] S1 IH]; intros P Hwf Hdisj Hk; simpl.
  - by rewrite (proj2 (dict_mem_true k P)).
  - simpl in Hwf. apply NoDup_cons in Hwf as [Hk1 Hwf].
    rewrite (proj2 (dict_mem_false k1 P)) by (apply Hdisj; simpl; set_solver).
    apply IH; [done| |by apply keys_dict_set].
    intros k' Hk'. rewrite dict_set_fresh by (apply Hdisj; simpl; set_solver).
    rewrite keys_app. simpl. intros [HP|Heq%list_elem_of_singleton]%elem_of_app.
    + apply (Hdisj k'); [simpl; set_solver|done].
    + by subst.
Qed.

Lemma unify_formats_first_collision_witness :
  unify_formats [fmt "DNM_LL" "Float"; fmt "DP" "Integer"; fmt "GT" "String"]
    (formats (gt_file [])) = Raised (FieldCollisionError "DP").
Proof.
  apply (unify_formats_first_collision [fmt "DNM_LL" "Float"] [fmt "GT" "String"]).
  - unfold dict_wf. simpl. apply NoDup_singleton.
  - simpl. intros k' ->%list_elem_of_singleton Hin.
    repeat (apply elem_of_cons in Hin as [Hin|Hin]; [discriminate|]).
    by apply elem_of_nil in Hin.
  - simpl. right. left.
Defined.

(** X3. When the two headers share a sample and some FORMAT name is
    declared by both, the run exits with the collision message of the
    first such name in the order of the likelihood header, whatever
    follows it there; nothing has been written and no record read. *)
Theorem first_collision_ends_run (isidentifier iskeyword : string → bool)
    (keep_LLs : bool) (gt_vcf_reader ll_vcf_reader : reader)
    (S1 S2 : dict format_info) (k : string) (v : format_info) :
  (∃ s, s ∈ reader_samples ll_vcf_reader ∧ s ∈ reader_samples gt_vcf_reader) →
  formats ll_vcf_reader = S1 ++ (k, v) :: S2 →
  dict_wf S1 →
  (∀ k', k' ∈ keys S1 → k' ∉ keys (formats gt_vcf_reader)) →
  k ∈ keys (formats gt_vcf_reader) →
  main isidentifier iskeyword keep_LLs gt_vcf_reader ll_vcf_reader =
    (Raised (FieldCollisionError k),
     {| ll_record := None; ll_pending := stream ll_vcf_reader; stdout := [] |}).
Proof.
  intros (s & Hl & Hg) HS Hwf Hdisj Hk. unfold main.
  rewrite decide_False by (rewrite no_shared_sample_size; intros H; by apply (H s)).
  unfold mbind, M_bind, lift.
  by rewrite HS, unify_formats_first_collision.
Qed.

Lemma first_collision_ends_run_witness :
  main3 false (gt_file [gt_site "chr1" 100])
    {| reader_samples := ["s1"];
       formats := [fmt "DNM_LL" "Float"; fmt "DP" "Integer"; fmt "GT" "String"];
       stream := [ll_site "chr1" 100] |} =
    (Raised (FieldCollisionError "DP"),
     {| ll_record := None; ll_pending := [ll_site "chr1" 100]; stdout := [] |}).
Proof.
  apply (first_collision_ends_run ascii_isidentifier py3_iskeyword false
           (gt_file [gt_site "chr1" 100])
           {| reader_samples := ["s1"];
              formats := [fmt "DNM_LL" "Float"; fmt "DP" "Integer"; fmt "GT" "String"];
              stream := [ll_site "chr1" 100] |}
           [fmt "DNM_LL" "Float"] [fmt "GT" "String"] "DP" (fmt "DP" "Integer").2).
  - exists "s1". split; simpl; left.
  - reflexivity.
  - unfold dict_wf. simpl. apply NoDup_singleton.
  - simpl. intros k' Hk'%list_elem_of_singleton Hin. subst k'.
    repeat (apply elem_of_cons in Hin as [Hin|Hin]; [discriminate|]).
    by apply elem_of_nil in Hin.
  - simpl. right. left.
Defined.

(** X4. After a successful initialisation every name resolves, in the unified
    declarations, to the entry of the header that declared it. *)
Theorem unified_lookup (S P U : dict format_info) (k : string) :
  unify_formats S P = Returned U →
  (k ∈ keys P → dict_get k U = dict_get k P) ∧
  (k ∈ keys S → dict_get k U = dict_get k S) ∧
  (k ∉ keys P → k ∉ keys S → dict_get k U = None).
Proof.
  intros (_ & Hdisj & ->)%unify_formats_Returned. rewrite dict_get_app. split_and!.
  - intros [v ->]%dict_get_is_Some. done.
  - intros HS. by rewrite (proj2 (dict_get_None k P)) by (by apply Hdisj).
  - intros HP HS. rewrite (proj2 (dict_get_None k P)) by done. by apply dict_get_None.
Qed.

Lemma unified_lookup_witness :
  (dict_get "DP" (formats (gt_file []) ++ formats (ll_file []))
     = dict_get "DP" (formats (gt_file []))) ∧
  (dict_get "DNM_LL" (formats (gt_file []) ++ formats (ll_file []))
     = dict_get "DNM_LL" (formats (ll_file []))).
Proof.
  destruct (unified_lookup (formats (ll_file [])) (formats (gt_file []))
              (formats (gt_file []) ++ formats (ll_file [])) "DP" eq_refl)
    as (Hgt & _ & _).
  destruct (unified_lookup (formats (ll_file [])) (formats (gt_file []))
              (formats (gt_file []) ++ formats (ll_file [])) "DNM_LL" eq_refl)
    as (_ & Hll & _).
  split.
  - apply Hgt. simpl. right. left.
  - apply Hll. simpl. left.
Defined.

(** ** How a run can end *)

Lemma outcome_bind_Raised {A B} (m : outcome A) (f : A → outcome B) (e : exn) :
  m ≫= f = Raised e → m = Raised e ∨ ∃ a, m = Returned a ∧ f a = Raised e.
Proof.
  destruct m as [a|e']; simpl.
  - intros Hf. right. by exists a.
  - intros [= <-]. by left.
Qed.

Lemma unify_formats_Raised (S P : dict format_info) (e : exn) :
  unify_formats S P = Raised e → ∃ k, k ∈ keys S ∧ e = FieldCollisionError k.
Proof.
  revert P. induction S as [|[k v] S IH]; intros P; simpl; [done|].
  destruct (dict_mem k P).
  - intros [= <-]. exists k. split; [by left|done].
  - intros (k' & Hk' & ->)%IH. exists k'. split; [by right|done].
Qed.

Lemma PairingMismatchError_not_duplicate (e : exn) :
  PairingMismatchError e → e ≠ DuplicateFieldError.
Proof.
  intros (msg & -> & Hmsg) [= ->].
  repeat (apply elem_of_cons in Hmsg as [Hmsg|Hmsg]; [discriminate|]).
  by apply elem_of_nil in Hmsg.
Qed.

Lemma raised_by_library_not_exit (e : exn) (msg : string) :
  raised_by_library e → e ≠ SystemExit msg.
Proof. by intros He ->. Qed.

Section Outcomes.

Variables isidentifier iskeyword : string → bool.
Variable keep_LLs : bool.
Variables gt_formats ll_formats : dict format_info.
Variable ll_samples : list string.
Variable all_ll_samples : gset string.

Lemma check_identifiers_Raised (names : list string) (e : exn) :
  check_identifiers isidentifier iskeyword names = Raised e → ∃ why, e = ValueError why.
Proof.
  induction names as [|name later IH]; simpl; [done|].
  destruct (negb _); [intros [= <-]; by eexists|].
  destruct (iskeyword _); [intros [= <-]; by eexists|done].
Qed.

Lemma check_field_names_Raised (seen : gset string) (names : list string) (e : exn) :
  check_field_names seen names = Raised e → ∃ why, e = ValueError why.
Proof.
  revert seen. induction names as [|name later IH]; intros seen; simpl; [done|].
  destruct (String.prefix _ _); [intros [= <-]; by eexists|].
  case_bool_decide; [intros [= <-]; by eexists|apply IH].
Qed.

Lemma make_calldata_tuple_Raised (fields : list string) (e : exn) :
  make_calldata_tuple isidentifier iskeyword fields = Raised e → ∃ why, e = ValueError why.
Proof.
  unfold make_calldata_tuple.
  intros [Hids|([] & _ & [Hnames|([] & _ & [=])]%outcome_bind_Raised)]%outcome_bind_Raised.
  - by eapply check_identifiers_Raised.
  - by eapply check_field_names_Raised.
Qed.

(** [namedtuple] is what stops a repeated field name. *)
Lemma make_calldata_tuple_repeated (fields : list string) :
  ¬ NoDup fields →
  ∃ why, make_calldata_tuple isidentifier iskeyword fields = Raised (ValueError why).
Proof.
  intros Hrep.
  destruct (make_calldata_tuple isidentifier iskeyword fields) as [t|e] eqn:Hmake.
  - by apply make_calldata_tuple_Returned in Hmake as [_ ?].
  - apply make_calldata_tuple_Raised in Hmake as [why ->]. by exists why.
Qed.

Lemma field_origins_Raised (gt_fields todo : list string) (samp_fmt : calldata_tuple)
    (in_gt : list bool) (e : exn) :
  field_origins gt_formats ll_formats gt_fields todo samp_fmt in_gt = Raised e →
  ∃ f, e = KeyError f ∧ f ∈ todo ∧
       dict_get f (origin_formats gt_formats ll_formats gt_fields f) = None.
Proof.
  unfold origin_formats.
  revert samp_fmt in_gt. induction todo as [|f todo IH]; intros samp_fmt in_gt; simpl; [done|].
  destruct (dict_get f _) as [entry|] eqn:Hget.
  - intros (f' & -> & Hin & Hnone)%IH. exists f'. split_and!; [done|by right|done].
  - intros [= <-]. exists f. split_and!; [done|by left|done].
Qed.

Lemma call_getitem_Raised (c : call) (key : string) (e : exn) :
  call_getitem c key = Raised e → raised_by_library e.
Proof. unfold call_getitem. destruct (dict_get _ _); [done|]. by intros [= <-]. Qed.

Lemma genotype_Raised (names : list string) (r : vcf_record) (name : string) (e : exn) :
  genotype names r name = Raised e → raised_by_library e.
Proof.
  unfold genotype. destruct (sample_index _ _); [|by intros [= <-]].
  destruct (_ !! _); [done|]. by intros [= <-].
Qed.

Lemma sampdat_loop_Raised (s : call) (ll_sample : option call) (fields : list string)
    (in_gt : list bool) (indices : list nat) (acc : list pyval) (e : exn) :
  sampdat_loop s ll_sample fields in_gt indices acc = Raised e → raised_by_library e.
Proof.
  revert acc. induction indices as [|i later IH]; intros acc; simpl; [done|].
  destruct (fields !! i) as [key|]; [|by intros [= <-]].
  destruct (in_gt !! i) as [from_gt|]; [|by intros [= <-]].
  intros [Hv|(v & _ & Hrest)]%outcome_bind_Raised; [|by eapply IH].
  unfold field_value in Hv. destruct from_gt; [by eapply call_getitem_Raised|].
  destruct ll_sample; [by eapply call_getitem_Raised|done].
Qed.

Lemma new_samples_loop_Raised (ll_rec : vcf_record) (samp_fmt : calldata_tuple)
    (in_gt : list bool) (todo acc : list call) (e : exn) :
  new_samples_loop ll_samples all_ll_samples ll_rec samp_fmt in_gt todo acc = Raised e →
  raised_by_library e.
Proof.
  revert acc. induction todo as [|s todo IH]; intros acc; simpl; [done|].
  intros [Hcall|(c & _ & Hrest)]%outcome_bind_Raised; [|by eapply IH].
  unfold new_call in Hcall.
  apply outcome_bind_Raised in Hcall as [Hll|(ll_sample & _ & Hcall)].
  - case_bool_decide; [|done].
    destruct (genotype _ _ _) eqn:Hg; [done|]. injection Hll as <-.
    by eapply genotype_Raised.
  - apply outcome_bind_Raised in Hcall as [Hdat|(vals & _ & [=])].
    by eapply sampdat_loop_Raised.
Qed.

Lemma build_record_Raised (gt_record ll_rec : vcf_record)
    (gt_fields denovo_fields : list string) (e : exn) :
  build_record isidentifier iskeyword keep_LLs gt_formats ll_formats ll_samples
    all_ll_samples gt_record ll_rec gt_fields denovo_fields = Raised e →
  raised_by_library e.
Proof.
  unfold build_record.
  intros [Hmake|(t & _ & Hrest)]%outcome_bind_Raised.
  { by apply make_calldata_tuple_Raised in Hmake as [why ->]. }
  apply outcome_bind_Raised in Hrest as [Horig|([t' in_gt] & _ & Hrest)].
  { by apply field_origins_Raised in Horig as (f & -> & _). }
  apply outcome_bind_Raised in Hrest as [Hloop|(cs & _ & [=])].
  by eapply new_samples_loop_Raised.
Qed.

Lemma merge_record_Raised (gt_record ll_rec : vcf_record) (e : exn) :
  merge_record isidentifier iskeyword keep_LLs gt_formats ll_formats ll_samples
    all_ll_samples gt_record ll_rec = Raised e →
  PairingMismatchError e ∨ raised_by_library e.
Proof.
  rewrite merge_record_unchecked.
  intros [Hmatch|([] & _ & Hbuild)]%outcome_bind_Raised.
  - left. destruct (records_match_cases gt_record ll_rec)
      as [[_ Hret]|(_ & msg & Hexit & Hmsg)]; [congruence|].
    rewrite Hexit in Hmatch. injection Hmatch as <-. by exists msg.
  - right. by eapply build_record_Raised.
Qed.

Lemma for_each_Raised (gt_records : list vcf_record) (st st' : proc) (e : exn) :
  for_each (loop_body isidentifier iskeyword keep_LLs gt_formats ll_formats
              ll_samples all_ll_samples) gt_records st = (Raised e, st') →
  e = StopIteration ∨ PairingMismatchError e ∨ raised_by_library e.
Proof.
  revert st. induction gt_records as [|gt_record later IH]; intros st; [done|].
  rewrite for_each_cons.
  destruct (loop_body _ _ _ _ _ _ _ gt_record st) as [[[]|e'] st1] eqn:Hbody; [apply IH|].
  intros [= -> ->].
  assert (∀ ll_rec pending out,
    loop_body isidentifier iskeyword keep_LLs gt_formats ll_formats ll_samples
      all_ll_samples gt_record
      {| ll_record := Some ll_rec; ll_pending := pending; stdout := out |} = (Raised e, st') →
    PairingMismatchError e ∨ raised_by_library e) as Hbuffered.
  { intros ll_rec pending out. rewrite body_buffered. destruct (_ || _); [done|].
    destruct (merge_record _ _ _ _ _ _ _ _ _) as [r|e'] eqn:Hmerge; [done|].
    intros [= -> _]. by eapply merge_record_Raised. }
  destruct st as [[ll_rec|] pending out].
  - right. by eapply Hbuffered.
  - destruct pending as [|ll_rec pending].
    + rewrite body_exhausted in Hbody. left. congruence.
    + rewrite body_refill in Hbody. right. by eapply Hbuffered.
Qed.

End Outcomes.

(** X6. The exit of line 67 is dead code: whatever the two files hold, no run
    ends with the duplicate-fields message. *)
Theorem duplicate_exit_unreachable (isidentifier iskeyword : string → bool)
    (keep_LLs : bool) (gt_vcf_reader ll_vcf_reader : reader) :
  (main isidentifier iskeyword keep_LLs gt_vcf_reader ll_vcf_reader).1
    ≠ Raised DuplicateFieldError.
Proof.
  unfold main. case_decide; [done|].
  unfold mbind at 1, M_bind, lift.
  destruct (unify_formats _ _) as [gt_formats|e'] eqn:Hunify.
  - unfold mbind, M_bind, open_writer. simpl.
    match goal with |- context [for_each ?f ?l ?st] =>
      destruct (for_each f l st) as [[[]|e] st'] eqn:Hloop
    end; [done|].
    apply for_each_Raised in Hloop as [->|[Hpair|Hlib]]; simpl.
    + done.
    + intros [= ->]. by eapply PairingMismatchError_not_duplicate.
    + intros [= ->]. done.
  - apply unify_formats_Raised in Hunify as (k & _ & ->). simpl. intros [=].
Qed.

(** ** Exceptions under the construction of a record *)

(** X7. A field name that survives the filter of line 72 twice makes
    [namedtuple] raise a [ValueError]: this, and not the check of line 66,
    is what stops a repeated FORMAT field. *)
Theorem repeated_field_raises (isidentifier iskeyword : string → bool) (keep_LLs : bool)
    (gt_formats ll_formats : dict format_info) (ll_samples : list string)
    (all_ll_samples : gset string) (gt_record ll_rec : vcf_record) :
  same_variant gt_record ll_rec →
  ¬ NoDup (merged_fields keep_LLs (split colon (FORMAT gt_record))
             (split colon (FORMAT ll_rec))) →
  ∃ why, merge_record isidentifier iskeyword keep_LLs gt_formats ll_formats
           ll_samples all_ll_samples gt_record ll_rec = Raised (ValueError why).
Proof.
  intros Hsame Hrep. rewrite merge_record_unchecked.
  destruct (records_match_cases gt_record ll_rec) as [[_ ->]|[Hdiff _]]; [|done].
  destruct (make_calldata_tuple_repeated isidentifier iskeyword _ Hrep) as [why Hmake].
  exists why. unfold build_record. simpl. by rewrite Hmake.
Qed.

Lemma repeated_field_raises_witness :
  ∃ why, merge_record ascii_isidentifier py3_iskeyword true
           (formats gt_with_GL ++ formats ll_with_GL) (formats ll_with_GL) ["s1"]
           (list_to_set ["s1"])
           (site "chr1" 100 "GT:GL"
              [("GT", PyStr "0/1"); ("GL", PyFloat "-0.1")])
           (site "chr1" 100 "GL:DNM_LL" [("GL", PyStr "-7.5"); ("DNM_LL", PyFloat "-2.3")])
         = Raised (ValueError why).
Proof.
  apply repeated_field_raises.
  - by vm_compute.
  - vm_compute. intros Hnd. apply NoDup_cons in Hnd as [_ Hnd].
    apply NoDup_cons in Hnd as [Hnin _]. apply Hnin. left.
Defined.

Lemma field_origins_first_undeclared (gt_formats ll_formats : dict format_info)
    (gt_fields before after : list string) (f : string)
    (samp_fmt : calldata_tuple) (in_gt : list bool) :
  (∀ g, g ∈ before → is_Some (dict_get g (origin_formats gt_formats ll_formats gt_fields g))) →
  dict_get f (origin_formats gt_formats ll_formats gt_fields f) = None →
  field_origins gt_formats ll_formats gt_fields (before ++ f :: after) samp_fmt in_gt
    = Raised (KeyError f).
Proof.
  unfold origin_formats. intros Hdecl Hf.
  revert samp_fmt in_gt. induction before as [|g before IH]; intros samp_fmt in_gt; simpl.
  - by rewrite Hf.
  - destruct (Hdecl g) as [entry ->]; [by left|].
    apply IH. intros g' Hg'. apply Hdecl. by right.
Qed.

(** Once the names have passed [namedtuple], the first field of the merged
    list that is missing from the dictionary lines 77-83 look it up in
    makes the merge raise a [KeyError] on that name. *)
Lemma undeclared_field_raises (isidentifier iskeyword : string → bool) (keep_LLs : bool)
    (gt_formats ll_formats : dict format_info) (ll_samples : list string)
    (all_ll_samples : gset string) (gt_record ll_rec : vcf_record)
    (before after : list string) (f : string) (t : calldata_tuple) :
  let gt_fields := split colon (FORMAT gt_record) in
  let fields := merged_fields keep_LLs gt_fields (split colon (FORMAT ll_rec)) in
  same_variant gt_record ll_rec →
  make_calldata_tuple isidentifier iskeyword fields = Returned t →
  fields = before ++ f :: after →
  (∀ g, g ∈ before → is_Some (dict_get g (origin_formats gt_formats ll_formats gt_fields g))) →
  dict_get f (origin_formats gt_formats ll_formats gt_fields f) = None →
  merge_record isidentifier iskeyword keep_LLs gt_formats ll_formats
    ll_samples all_ll_samples gt_record ll_rec = Raised (KeyError f).
Proof.
  intros gt_fields fields Hsame Hmake Hfields Hdecl Hf. rewrite merge_record_unchecked.
  destruct (records_match_cases gt_record ll_rec) as [[_ ->]|[Hdiff _]]; [|done].
  unfold build_record. fold gt_fields. fold fields. simpl. rewrite Hmake. simpl.
  apply make_calldata_tuple_Returned in Hmake as [-> _]. simpl.
  by rewrite Hfields, field_origins_first_undeclared.
Qed.

Lemma undeclared_field_raises_witness :
  merge_record ascii_isidentifier py3_iskeyword false
    (formats (gt_file []) ++ formats (ll_file [])) (formats (ll_file [])) ["s1"]
    (list_to_set ["s1"])
    (site "chr1" 100 "GT:AD:DP" [("GT", PyStr "0/1"); ("AD", PyStr "3,4"); ("DP", PyInt 30)])
    (ll_site "chr1" 100)
  = Raised (KeyError "AD").
Proof.
  apply (undeclared_field_raises ascii_isidentifier py3_iskeyword false _ _ _ _ _ _
           ["GT"] ["DP"; "DNM_LL"] "AD"
           {| _fields := ["GT"; "AD"; "DP"; "DNM_LL"]; _types := []; _nums := [] |}).
  - by vm_compute.
  - by vm_compute.
  - by vm_compute.
  - intros g ->%list_elem_of_singleton. vm_compute. eexists. reflexivity.
  - by vm_compute.
Defined.

(** ** Records the merge cannot fail on *)

Lemma sample_index_lookup (names : list string) (name : string) (i : nat) :
  sample_index names name = Some i → names !! i = Some name.
Proof.
  revert i. induction names as [|n rest IH]; intros i; simpl; [done|].
  destruct (sample_index rest name) as [j|].
  - intros [= <-]. by apply IH.
  - case_decide; [|done]. intros [= <-]. by subst.
Qed.

Lemma sample_index_is_Some (names : list string) (name : string) :
  name ∈ names → is_Some (sample_index names name).
Proof.
  induction names as [|n rest IH]; simpl; [by intros ?%elem_of_nil|].
  intros [->|[i ->]%IH]%elem_of_cons; [|done].
  destruct (sample_index rest n); [done|]. by rewrite decide_True.
Qed.

(** On a record with one call per header sample, [genotype] finds the call
    of every header sample, and that call bears the name asked for. *)
Lemma genotype_wf (names : list string) (r : vcf_record) (name : string) :
  sample <$> samples r = names → name ∈ names →
  ∃ c, genotype names r name = Returned c ∧ c ∈ samples r ∧ sample c = name.
Proof.
  intros Hnames [i Hi]%sample_index_is_Some. unfold genotype. rewrite Hi.
  apply sample_index_lookup in Hi. rewrite <-Hnames in Hi.
  apply list_lookup_fmap_Some in Hi as (c & Hname & Hc).
  exists c. rewrite Hc. split_and!; [done|by eapply list_elem_of_lookup_2|done].
Qed.

Section Wellformed.

Variables isidentifier iskeyword : string → bool.
Variable keep_LLs : bool.
Variables gt_formats ll_formats : dict format_info.
Variable ll_samples : list string.
Variable all_ll_samples : gset string.

Lemma check_identifiers_total (names : list string) :
  Forall (λ f, isidentifier f = true ∧ iskeyword f = false) names →
  check_identifiers isidentifier iskeyword names = Returned tt.
Proof.
  induction 1 as [|name later [Hid Hkw] _ IH]; simpl; [done|]. by rewrite Hid, Hkw.
Qed.

Lemma check_field_names_total (seen : gset string) (names : list string) :
  Forall (λ f, String.prefix "_" f = false) names →
  NoDup names → (∀ n, n ∈ names → n ∉ seen) →
  check_field_names seen names = Returned tt.
Proof.
  intros Hpre. revert seen. induction Hpre as [|name later Hname _ IH]; intros seen; [done|].
  intros [Hnin Hnd]%NoDup_cons Hfresh. simpl. rewrite Hname.
  rewrite bool_decide_eq_false_2 by (apply Hfresh; by left).
  apply IH; [done|]. intros n Hn. specialize (Hfresh n (list_elem_of_further _ _ _ Hn)).
  set_solver.
Qed.

Lemma field_origins_total (gt_fields todo : list string) (samp_fmt : calldata_tuple)
    (in_gt : list bool) :
  (∀ f, f ∈ todo → is_Some (dict_get f (origin_formats gt_formats ll_formats gt_fields f))) →
  ∃ res, field_origins gt_formats ll_formats gt_fields todo samp_fmt in_gt = Returned res.
Proof.
  unfold origin_formats.
  revert samp_fmt in_gt. induction todo as [|f todo IH]; intros samp_fmt in_gt Hdecl; simpl.
  - by eexists.
  - destruct (Hdecl f) as [entry ->]; [by left|].
    apply IH. intros g Hg. apply Hdecl. by right.
Qed.

Lemma sampdat_loop_total (s : call) (ll_sample : option call) (fields : list string)
    (from_gt : string → bool) (n k : nat) (acc : list pyval) :
  (∀ key, key ∈ fields → ∃ v, field_value s ll_sample key (from_gt key) = Returned v) →
  (k + n)%nat = length fields →
  ∃ vals, sampdat_loop s ll_sample fields (from_gt <$> fields) (seq k n) acc = Returned vals.
Proof.
  intros Hvalues. revert k acc. induction n as [|n IH]; intros k acc Hk; simpl.
  - by eexists.
  - destruct (lookup_lt_is_Some_2 fields k) as [key Hkey]; [lia|].
    rewrite list_lookup_fmap, Hkey. simpl.
    destruct (Hvalues key) as [v ->]; [by eapply list_elem_of_lookup_2|]. simpl.
    apply IH. lia.
Qed.

(** X9. On records as PyVCF parses them, for the same variant, whose merged
    field names [namedtuple] accepts and whose merged fields are declared
    in the dictionary lines 77-83 look them up in, building the merged
    record raises nothing: every lookup of lines 78-104 finds its key. *)
Theorem merge_record_wellformed (gt_samples : list string) (gt_record ll_rec : vcf_record) :
  let gt_fields := split colon (FORMAT gt_record) in
  let fields := merged_fields keep_LLs gt_fields (split colon (FORMAT ll_rec)) in
  same_variant gt_record ll_rec →
  record_wf gt_samples gt_record →
  record_wf ll_samples ll_rec →
  (∀ name, name ∈ all_ll_samples → name ∈ ll_samples) →
  Forall (λ f, isidentifier f = true ∧ iskeyword f = false) ("calldata" :: fields) →
  Forall (λ f, String.prefix "_" f = false) fields →
  NoDup fields →
  (∀ f, f ∈ fields → is_Some (dict_get f (origin_formats gt_formats ll_formats gt_fields f))) →
  ∃ r, merge_record isidentifier iskeyword keep_LLs gt_formats ll_formats ll_samples
         all_ll_samples gt_record ll_rec = Returned r.
Proof.
  intros gt_fields fields Hsame [_ Hgt] [Hnames Hll] Hknown Hids Hpre Hnd Hdecl.
  rewrite merge_record_unchecked.
  destruct (records_match_cases gt_record ll_rec) as [[_ ->]|[Hdiff _]]; [|done].
  unfold build_record. fold gt_fields. fold fields. simpl.
  unfold make_calldata_tuple.
  rewrite check_identifiers_total by done. simpl.
  rewrite check_field_names_total by (done || set_solver). simpl.
  destruct (field_origins_total gt_fields fields
              {| _fields := fields; _types := []; _nums := [] |} [] Hdecl)
    as [[t' in_gt] Horig].
  rewrite Horig. simpl.
  apply field_origins_Returned in Horig as [Hfields ->]. simpl in *.
  destruct t' as [fields' types nums]. simpl in Hfields. subst fields'.
  assert (∀ todo acc, Forall (λ c, keys (data c) = gt_fields) todo →
    ∃ cs, new_samples_loop ll_samples all_ll_samples ll_rec
            {| _fields := fields; _types := types; _nums := nums |}
            ((λ f, bool_decide (f ∈ gt_fields)) <$> fields) todo acc = Returned cs)
    as Hloop.
  { intros todo acc Htodo. revert acc.
    induction Htodo as [|s todo Hs _ IH]; intros acc; simpl; [by eexists|].
    assert (∃ ll_sample,
      (if bool_decide (sample s ∈ all_ll_samples)
       then Some <$> genotype ll_samples ll_rec (sample s)
       else Returned (@None call)) = Returned ll_sample ∧
      ∀ c0, ll_sample = Some c0 → keys (data c0) = split colon (FORMAT ll_rec))
      as (ll_sample & Hll_sample & Hdata).
    { case_bool_decide as Hin; [|by exists None].
      destruct (genotype_wf ll_samples ll_rec (sample s) Hnames (Hknown _ Hin))
        as (c0 & -> & Hc0 & _).
      exists (Some c0). split; [done|]. intros c1 [= <-].
      by apply (proj1 (Forall_forall _ _) Hll). }
    unfold new_call. rewrite Hll_sample. simpl.
    destruct (sampdat_loop_total s ll_sample fields (λ f, bool_decide (f ∈ gt_fields))
                (length fields) 0 []) as [vals ->]; [|done|].
    - intros key Hkey. unfold field_value.
      destruct (decide (key ∈ gt_fields)) as [Hgtf|Hgtf];
        [rewrite (bool_decide_eq_true_2 _ Hgtf)|rewrite (bool_decide_eq_false_2 _ Hgtf)].
      + unfold call_getitem.
        destruct (dict_get_is_Some key (data s)) as [v ->]; [by rewrite Hs|]. by exists v.
      + destruct ll_sample as [c0|]; [|by eexists].
        unfold call_getitem.
        destruct (dict_get_is_Some key (data c0)) as [v ->]; [|by exists v].
        rewrite (Hdata c0 eq_refl).
        by apply merged_fields_origin in Hkey as [?|?].
    - simpl. apply IH. }
  destruct (Hloop (samples gt_record) [] Hgt) as [cs ->]. simpl. by eexists.
Qed.

End Wellformed.

Lemma merge_record_wellformed_witness :
  ∃ r, merge_record ascii_isidentifier py3_iskeyword false
         (formats gt_only_GL ++ formats ll_only_s1) (formats ll_only_s1)
         (reader_samples ll_only_s1) (list_to_set (reader_samples ll_only_s1))
         {| CHROM := "chr1"; POS := 100; ID := None; REF := "A";
            ALT := [Substitution "T"]; FORMAT := "GT:GL";
            samples := [{| sample := "s1";
                           data := [("GT", PyStr "0/1"); ("GL", PyFloat "-0.1")] |};
                        {| sample := "s2";
                           data := [("GT", PyStr "0/0"); ("GL", PyFloat "-0.2")] |}] |}
         {| CHROM := "chr1"; POS := 100; ID := None; REF := "A";
            ALT := [Substitution "T"]; FORMAT := "DNM_LL";
            samples := [{| sample := "s1"; data := [("DNM_LL", PyFloat "-2.3")] |}] |}
       = Returned r.
Proof.
  apply (merge_record_wellformed ascii_isidentifier py3_iskeyword false _ _ _ _
           (reader_samples gt_only_GL)).
  - by vm_compute.
  - split; [reflexivity|]. repeat constructor.
  - split; [reflexivity|]. repeat constructor.
  - intros name Hname. by apply elem_of_list_to_set in Hname.
  - vm_compute. repeat constructor.
  - vm_compute. repeat constructor.
  - vm_compute. repeat constructor; intros Hin;
      repeat (apply elem_of_cons in Hin as [Hin|Hin]; [discriminate|]);
      by apply elem_of_nil in Hin.
  - intros f Hf. vm_compute in Hf.
    repeat (apply elem_of_cons in Hf as [->|Hf]; [vm_compute; eexists; reflexivity|]).
    by apply elem_of_nil in Hf.
Defined.

(** ** How the two streams are paired *)

Section Pairing.

Variables isidentifier iskeyword : string → bool.
Variable keep_LLs : bool.
Variables gt_formats ll_formats : dict format_info.
Variable ll_samples : list string.
Variable all_ll_samples : gset string.

Let body : vcf_record → M unit :=
  loop_body isidentifier iskeyword keep_LLs gt_formats ll_formats
    ll_samples all_ll_samples.

Let merge : vcf_record → vcf_record → outcome vcf_record :=
  merge_record isidentifier iskeyword keep_LLs gt_formats ll_formats
    ll_samples all_ll_samples.

Local Abbreviation avail st := (option_list (ll_record st) ++ ll_pending st).

(** An iteration either writes nothing and forgets no likelihood record,
    or writes the merge with the first likelihood record it can see and
    drops exactly that record. *)
Lemma body_pairing (gt_record : vcf_record) (st : proc) :
  let st1 := (body gt_record st).2 in
  (stdout st1 = stdout st ∧ avail st = avail st1) ∨
  (∃ ll_rec r, merge gt_record ll_rec = Returned r ∧
               (body gt_record st).1 = Returned tt ∧
               stdout st1 = stdout st ++ [Line r] ∧
               avail st = ll_rec :: avail st1).
Proof.
  assert (∀ ll_rec pending out,
    let st := {| ll_record := Some ll_rec; ll_pending := pending; stdout := out |} in
    let st1 := (body gt_record st).2 in
    (stdout st1 = out ∧ ll_rec :: pending = avail st1) ∨
    (∃ r, merge gt_record ll_rec = Returned r ∧
          (body gt_record st).1 = Returned tt ∧
          stdout st1 = out ++ [Line r] ∧ pending = avail st1)) as Hbuffered.
  { intros ll_rec pending out st0. unfold st0, body.
    rewrite body_buffered. fold merge. destruct (_ || _); [by left|].
    destruct (merge gt_record ll_rec) as [merged|e] eqn:Hmerge; [|by left].
    right. by exists merged. }
  destruct st as [[ll_rec|] pending out]; simpl.
  - destruct (Hbuffered ll_rec pending out) as [[? ?]|(r & ? & ? & ? & ?)]; [by left|].
    right. exists ll_rec, r. split_and!; [done|done|done|by f_equal].
  - destruct pending as [|ll_rec pending]; [by left|].
    unfold body. rewrite body_refill. fold body.
    destruct (Hbuffered ll_rec pending out) as [[? ?]|(r & ? & ? & ? & ?)]; [by left|].
    right. exists ll_rec, r. split_and!; [done|done|done|by f_equal].
Qed.

Lemma for_each_pairing (gt_records : list vcf_record) (st : proc) :
  let st' := (for_each body gt_records st).2 in
  ∃ gts lls rs,
    Forall3 (λ gt_record ll_rec r, merge gt_record ll_rec = Returned r) gts lls rs ∧
    gts `sublist_of` gt_records ∧
    stdout st' = stdout st ++ (Line <$> rs) ∧
    avail st = lls ++ avail st'.
Proof.
  revert st. induction gt_records as [|gt_record later IH]; intros st.
  - exists [], [], []. simpl. rewrite app_nil_r. split_and!; [constructor|done|done|done].
  - cbv zeta. rewrite for_each_cons.
    destruct (body_pairing gt_record st) as [[Hout Hav]|(ll_rec & r & Hr & Hret & Hout & Hav)];
      simpl in *.
    + destruct (body gt_record st) as [[[]|e] st1]; simpl in *.
      * destruct (IH st1) as (gts & lls & rs & Hall & Hsub & Hout' & Hav').
        exists gts, lls, rs. split_and!; [done|by constructor|congruence|congruence].
      * exists [], [], []. simpl. rewrite app_nil_r.
        split_and!; [constructor|apply sublist_nil_l|done|done].
    + destruct (body gt_record st) as [[[]|e] st1]; simpl in *; [|done].
      destruct (IH st1) as (gts & lls & rs & Hall & Hsub & Hout' & Hav').
      exists (gt_record :: gts), (ll_rec :: lls), (r :: rs).
      split_and!; [by constructor|by constructor| |].
      * rewrite Hout', Hout, <-app_assoc. done.
      * rewrite Hav, Hav'. done.
Qed.

(** Streams in step: when each genotype record merges with the likelihood
    record in the same position, the loop writes all the merges, in order,
    and stops with an empty lookahead in front of the likelihood records
    that are left. *)
Lemma for_each_in_step (gts lls rs rest : list vcf_record) (out : list output) :
  Forall3 (λ gt_record ll_rec r, merge gt_record ll_rec = Returned r) gts lls rs →
  for_each body gts {| ll_record := None; ll_pending := lls ++ rest; stdout := out |} =
    (Returned tt,
     {| ll_record := None; ll_pending := rest; stdout := out ++ (Line <$> rs) |}).
Proof.
  intros Hall. revert out.
  induction Hall as [|gt_record ll_rec r gts lls rs Hr _ IH]; intros out.
  - simpl. by rewrite app_nil_r.
  - change ((ll_rec :: lls) ++ rest) with (ll_rec :: (lls ++ rest)).
    rewrite for_each_cons. unfold body. rewrite body_refill, body_buffered.
    fold body. fold merge. rewrite Hr.
    apply merge_record_Returned in Hr as [(Hc & Hp & _) _].
    rewrite bool_decide_eq_false_2 by (intros ?; congruence).
    rewrite bool_decide_eq_false_2 by lia. simpl.
    rewrite IH. by rewrite <-app_assoc.
Qed.

End Pairing.

(** X10. The lines [main] writes pair the two files in order and one to one:
    the genotype records that were written keep the order of the genotype
    file, the likelihood records they were merged with are, in order, the
    first records of the likelihood file, and what is left of the
    likelihood file is in the lookahead or still unread. A line is never
    taken back, whatever ends the run. *)
Theorem lines_pair_streams_in_order (isidentifier iskeyword : string → bool)
    (keep_LLs : bool) (gt_vcf_reader ll_vcf_reader : reader) :
  let st := (main isidentifier iskeyword keep_LLs gt_vcf_reader ll_vcf_reader).2 in
  ∃ gts lls rs,
    gts `sublist_of` stream gt_vcf_reader ∧
    stream ll_vcf_reader = lls ++ option_list (ll_record st) ++ ll_pending st ∧
    length gts = length rs ∧ length lls = length rs ∧
    ((stdout st = [] ∧ rs = []) ∨
     ∃ gt_formats,
       unify_formats (formats ll_vcf_reader) (formats gt_vcf_reader) = Returned gt_formats ∧
       stdout st = Header (reader_samples gt_vcf_reader) gt_formats :: (Line <$> rs) ∧
       Forall3 (λ gt_record ll_rec r,
                  merge_record isidentifier iskeyword keep_LLs gt_formats
                    (formats ll_vcf_reader) (reader_samples ll_vcf_reader)
                    (list_to_set (reader_samples ll_vcf_reader)) gt_record ll_rec
                  = Returned r) gts lls rs).
Proof.
  unfold main. case_decide.
  { exists [], [], []. simpl. split_and!; [apply sublist_nil_l|done|done|done|by left]. }
  unfold mbind at 1, M_bind, lift.
  destruct (unify_formats _ _) as [gt_formats|e] eqn:Hunify.
  2:{ exists [], [], []. simpl. split_and!; [apply sublist_nil_l|done|done|done|by left]. }
  unfold mbind, M_bind, open_writer. simpl.
  match goal with |- context [for_each ?f ?l ?st] =>
    destruct (for_each_pairing isidentifier iskeyword keep_LLs gt_formats
                (formats ll_vcf_reader) (reader_samples ll_vcf_reader)
                (list_to_set (reader_samples ll_vcf_reader)) l st)
      as (gts & lls & rs & Hall & Hsub & Hout & Hav)
  end.
  simpl in *. exists gts, lls, rs.
  split_and!; [done|done|by eapply Forall3_length_lr|
               by rewrite <-(Forall3_length_lm _ _ _ _ Hall), (Forall3_length_lr _ _ _ _ Hall)|].
  right. by exists gt_formats.
Qed.

(** X11. When the two headers share a sample and no FORMAT name, and every
    genotype record merges with the likelihood record in the same position
    of its file, the run returns normally: it has written the header, with
    the genotype declarations followed by the likelihood ones, and then
    one line per genotype record, in order; the lookahead is empty and the
    likelihood records beyond the last genotype record are unread. *)
Theorem in_step_streams_all_written (isidentifier iskeyword : string → bool)
    (keep_LLs : bool) (gt_vcf_reader ll_vcf_reader : reader)
    (lls rest rs : list vcf_record) :
  (∃ s, s ∈ reader_samples ll_vcf_reader ∧ s ∈ reader_samples gt_vcf_reader) →
  dict_wf (formats ll_vcf_reader) →
  (∀ k, k ∈ keys (formats ll_vcf_reader) → k ∉ keys (formats gt_vcf_reader)) →
  stream ll_vcf_reader = lls ++ rest →
  Forall3 (λ gt_record ll_rec r,
             merge_record isidentifier iskeyword keep_LLs
               (formats gt_vcf_reader ++ formats ll_vcf_reader)
               (formats ll_vcf_reader) (reader_samples ll_vcf_reader)
               (list_to_set (reader_samples ll_vcf_reader)) gt_record ll_rec
             = Returned r) (stream gt_vcf_reader) lls rs →
  main isidentifier iskeyword keep_LLs gt_vcf_reader ll_vcf_reader =
    (Returned tt,
     {| ll_record := None; ll_pending := rest;
        stdout := Header (reader_samples gt_vcf_reader)
                    (formats gt_vcf_reader ++ formats ll_vcf_reader)
                  :: (Line <$> rs) |}).
Proof.
  intros (s & Hl & Hg) Hwf Hdisj Hstream Hall. unfold main.
  rewrite decide_False by (rewrite no_shared_sample_size; intros H; by apply (H s)).
  unfold mbind at 1, M_bind, lift.
  rewrite unify_formats_disjoint by done.
  unfold mbind, M_bind, open_writer. simpl. rewrite Hstream.
  by rewrite (for_each_in_step _ _ _ _ _ _ _ _ _ rs).
Qed.

Lemma in_step_streams_all_written_witness :
  main3 false gt_two_sites ll_two_sites =
    (Returned tt,
     {| ll_record := None; ll_pending := [];
        stdout := Header (reader_samples gt_two_sites)
                    (formats gt_two_sites ++ formats ll_two_sites)
                  :: (Line <$> [merged_site "chr1" 100; merged_site "chr1" 150]) |}).
Proof.
  apply (in_step_streams_all_written ascii_isidentifier py3_iskeyword false
           gt_two_sites ll_two_sites [ll_site "chr1" 100; ll_site "chr1" 150] []
           [merged_site "chr1" 100; merged_site "chr1" 150]).
  - exists "s1". split; simpl; left.
  - unfold dict_wf. simpl. apply NoDup_singleton.
  - simpl. intros k ->%list_elem_of_singleton Hin.
    repeat (apply elem_of_cons in Hin as [Hin|Hin]; [discriminate|]).
    by apply elem_of_nil in Hin.
  - reflexivity.
  - repeat constructor.
Defined.

(** ** What a written record keeps of its genotype record *)

Lemma build_record_site (isidentifier iskeyword : string → bool) (keep_LLs : bool)
    (gt_formats ll_formats : dict format_info) (ll_samples : list string)
    (all_ll_samples : gset string) (gt_record ll_rec r : vcf_record)
    (gt_fields denovo_fields : list string) :
  build_record isidentifier iskeyword keep_LLs gt_formats ll_formats ll_samples
    all_ll_samples gt_record ll_rec gt_fields denovo_fields = Returned r →
  CHROM r = CHROM gt_record ∧ POS r = POS gt_record ∧ ID r = ID gt_record ∧
  REF r = REF gt_record ∧ ALT r = ALT gt_record.
Proof.
  unfold build_record.
  intros (t & _ & ([t' in_gt] & _ & (cs & _ & [= <-])%outcome_bind_Returned)
            %outcome_bind_Returned)%outcome_bind_Returned.
  done.
Qed.

(** X12. Every line [main] writes is a record of the genotype file with its
    chromosome, position, identifier, reference and alternate alleles
    unchanged, and with the same samples in the same order: only the
    FORMAT column and the values of the calls are rebuilt. *)
Theorem written_record_keeps_site (isidentifier iskeyword : string → bool)
    (keep_LLs : bool) (gt_vcf_reader ll_vcf_reader : reader) (r : vcf_record) :
  Line r ∈ stdout (main isidentifier iskeyword keep_LLs gt_vcf_reader ll_vcf_reader).2 →
  ∃ gt_record,
    gt_record ∈ stream gt_vcf_reader ∧
    CHROM r = CHROM gt_record ∧ POS r = POS gt_record ∧ ID r = ID gt_record ∧
    REF r = REF gt_record ∧ ALT r = ALT gt_record ∧
    sample <$> samples r = sample <$> samples gt_record.
Proof.
  intros (gt_formats & gt_record & ll_rec & _ & Hgt & _ & Hmerge)%main_lines.
  apply merge_record_Returned in Hmerge as [_ Hbuild].
  destruct (build_record_site _ _ _ _ _ _ _ _ _ _ _ _ Hbuild) as (? & ? & ? & ? & ?).
  apply build_record_Returned in Hbuild as [_ Hcalls].
  exists gt_record. split_and!; try done.
  revert Hcalls. generalize (samples gt_record) (samples r).
  induction 1 as [|s c ss cs (Hname & _) _ IH]; [done|].
  rewrite !fmap_cons. by f_equal.
Qed.

Lemma written_record_keeps_site_witness :
  ∃ gt_record,
    gt_record ∈ stream gt_only_GL ∧
    CHROM merged_without_GL = CHROM gt_record ∧ POS merged_without_GL = POS gt_record ∧
    ID merged_without_GL = ID gt_record ∧ REF merged_without_GL = REF gt_record ∧
    ALT merged_without_GL = ALT gt_record ∧
    sample <$> samples merged_without_GL = sample <$> samples gt_record.
Proof.
  apply (written_record_keeps_site ascii_isidentifier py3_iskeyword false
           gt_only_GL ll_only_s1 merged_without_GL).
  vm_compute. right. left.
Defined.

(** ** The written FORMAT column *)

Lemma append_assoc (s1 s2 s3 : string) : (s1 +:+ s2) +:+ s3 = s1 +:+ (s2 +:+ s3).
Proof.
  induction s1 as [|c s1 IH]; [done|].
  change ((String c s1 +:+ s2) +:+ s3) with (String c ((s1 +:+ s2) +:+ s3)).
  change (String c s1 +:+ (s2 +:+ s3)) with (String c (s1 +:+ (s2 +:+ s3))).
  by rewrite IH.
Qed.

(** Joining the pieces of a split gives the string back. *)
Lemma join_split (sep : ascii) (s : string) :
  join (String sep EmptyString) (split sep s) = s.
Proof.
  induction s as [|c s IH]; [done|]. simpl split.
  destruct (split sep s) as [|h t] eqn:Hs; [by destruct (split_nonempty sep s)|].
  case_decide as Hc.
  - subst c. change (join _ (EmptyString :: h :: t))
      with (EmptyString +:+ String sep EmptyString +:+ join (String sep EmptyString) (h :: t)).
    by rewrite IH.
  - destruct t as [|h' t].
    + simpl in *. by rewrite IH.
    + change (join _ (String c h :: h' :: t))
        with (String c (h +:+ String sep EmptyString
                          +:+ join (String sep EmptyString) (h' :: t))).
      by rewrite <-IH.
Qed.

Lemma join_app (sep : string) (l1 l2 : list string) :
  l1 ≠ [] → l2 ≠ [] →
  join sep (l1 ++ l2) = join sep l1 +:+ sep +:+ join sep l2.
Proof.
  intros Hl1 Hl2. induction l1 as [|x l1 IH]; [done|]. clear Hl1.
  destruct l1 as [|y l1].
  - destruct l2 as [|z l2]; done.
  - change (join sep ((x :: y :: l1) ++ l2))
      with (x +:+ sep +:+ join sep ((y :: l1) ++ l2)).
    change (join sep (x :: y :: l1)) with (x +:+ sep +:+ join sep (y :: l1)).
    rewrite IH by done. by rewrite !append_assoc.
Qed.

Lemma filter_all (P : string → Prop) `{∀ x, Decision (P x)} (l : list string) :
  Forall P l → filter P l = l.
Proof.
  induction 1 as [|x l Hx _ IH]; [done|]. by rewrite filter_cons_True, IH.
Qed.

(** X13. Whenever the merge of a genotype record and a likelihood record
    returns the record to write, with [--keep-gls], or with neither record
    having a [GL], [PL] or [PHASEDGL] field, the FORMAT column of that
    record is the FORMAT column of the genotype record, a colon, and the
    FORMAT column of the likelihood record. *)
Theorem merged_FORMAT_concatenated (isidentifier iskeyword : string → bool)
    (keep_LLs : bool) (gt_formats ll_formats : dict format_info)
    (ll_samples : list string) (all_ll_samples : gset string)
    (gt_record ll_rec r : vcf_record) :
  merge_record isidentifier iskeyword keep_LLs gt_formats ll_formats ll_samples
    all_ll_samples gt_record ll_rec = Returned r →
  keep_LLs = true ∨
  Forall (λ x, x ∉ excluded_fields)
    (split colon (FORMAT gt_record) ++ split colon (FORMAT ll_rec)) →
  FORMAT r = FORMAT gt_record +:+ ":" +:+ FORMAT ll_rec.
Proof.
  intros [_ Hbuild]%merge_record_Returned Hkept.
  apply build_record_Returned in Hbuild as [Hformat _].
  assert (merged_fields keep_LLs (split colon (FORMAT gt_record))
            (split colon (FORMAT ll_rec))
          = split colon (FORMAT gt_record) ++ split colon (FORMAT ll_rec)) as Hfields.
  { unfold merged_fields. destruct Hkept as [->|Hall]; [done|].
    destruct keep_LLs; [done|]. by apply filter_all. }
  rewrite Hformat, Hfields. change ":"%string with (String colon EmptyString).
  rewrite join_app by apply split_nonempty. by rewrite !join_split.
Qed.

Lemma merged_FORMAT_concatenated_witness :
  FORMAT (merged_site "chr1" 100)
    = FORMAT (gt_site "chr1" 100) +:+ ":" +:+ FORMAT (ll_site "chr1" 100).
Proof.
  apply (merged_FORMAT_concatenated ascii_isidentifier py3_iskeyword false
           (formats (gt_file []) ++ formats (ll_file [])) (formats (ll_file []))
           ["s1"] (list_to_set ["s1"])).
  - by vm_compute.
  - right. vm_compute. repeat constructor; intros Hin;
      repeat (apply elem_of_cons in Hin as [Hin|Hin]; [discriminate|]);
      by apply elem_of_nil in Hin.
Defined.

(** ** Skipping up to the next likelihood record *)

Section Walk.

Variables isidentifier iskeyword : string → bool.
Variable keep_LLs : bool.
Variables gt_formats ll_formats : dict format_info.
Variable ll_samples : list string.
Variable all_ll_samples : gset string.

Let body : vcf_record → M unit :=
  loop_body isidentifier iskeyword keep_LLs gt_formats ll_formats
    ll_samples all_ll_samples.

Let merge : vcf_record → vcf_record → outcome vcf_record :=
  merge_record isidentifier iskeyword keep_LLs gt_formats ll_formats
    ll_samples all_ll_samples.

Lemma for_each_app {A} (f : A → M unit) (l1 l2 : list A) (st : proc) :
  for_each f (l1 ++ l2) st =
    match for_each f l1 st with
    | (Returned _, st') => for_each f l2 st'
    | (Raised e, st') => (Raised e, st')
    end.
Proof.
  revert st. induction l1 as [|x l1 IH]; intros st; [done|].
  change ((x :: l1) ++ l2) with (x :: (l1 ++ l2)). rewrite !for_each_cons.
  destruct (f x st) as [[[]|e] st1]; [apply IH|done].
Qed.

(** Records passed over one after the other leave the lookahead alone. *)
Lemma for_each_continue (gts : list vcf_record) (ll_rec : vcf_record)
    (pending : list vcf_record) (out : list output) :
  Forall (λ gt_record, CHROM gt_record ≠ CHROM ll_rec ∨ POS gt_record < POS ll_rec) gts →
  for_each body gts {| ll_record := Some ll_rec; ll_pending := pending; stdout := out |} =
    (Returned tt, {| ll_record := Some ll_rec; ll_pending := pending; stdout := out |}).
Proof.
  induction 1 as [|gt_record gts Hskip _ IH]; [done|].
  rewrite for_each_cons. unfold body. rewrite body_continue; [apply IH|].
  destruct Hskip as [Hc|Hp].
  - by rewrite (bool_decide_eq_true_2 _ Hc).
  - rewrite (bool_decide_eq_true_2 _ Hp). apply orb_true_r.
Qed.

Lemma for_each_walked (gts lls rs rest : list vcf_record) (out : list output) :
  walked merge gts lls rs →
  for_each body gts {| ll_record := None; ll_pending := lls ++ rest; stdout := out |} =
    (Returned tt,
     {| ll_record := None; ll_pending := rest; stdout := out ++ (Line <$> rs) |}) ∧
  ∀ ll_rec lls', lls = ll_rec :: lls' →
    for_each body gts
      {| ll_record := Some ll_rec; ll_pending := lls' ++ rest; stdout := out |} =
      (Returned tt,
       {| ll_record := None; ll_pending := rest; stdout := out ++ (Line <$> rs) |}).
Proof.
  intros Hwalk. revert out.
  induction Hwalk as [|gt_record gts ll_rec lls rs Hskip _ IH
                      |gt_record gts ll_rec lls r rs Hr _ IH]; intros out.
  - split; [simpl; by rewrite app_nil_r|done].
  - assert (for_each body (gt_record :: gts)
              {| ll_record := Some ll_rec; ll_pending := lls ++ rest; stdout := out |} =
            (Returned tt, {| ll_record := None; ll_pending := rest;
                            stdout := out ++ (Line <$> rs) |})) as Hbuffered.
    { rewrite for_each_cons. unfold body. rewrite body_continue.
      - fold body. by apply (IH out).
      - destruct Hskip as [Hc|Hp].
        + by rewrite (bool_decide_eq_true_2 _ Hc).
        + rewrite (bool_decide_eq_true_2 _ Hp). apply orb_true_r. }
    split; [|by intros ? ? [= <- <-]].
    change ((ll_rec :: lls) ++ rest) with (ll_rec :: (lls ++ rest)).
    rewrite for_each_cons. unfold body. rewrite body_refill. fold body.
    by rewrite for_each_cons in Hbuffered.
  - assert (for_each body (gt_record :: gts)
              {| ll_record := Some ll_rec; ll_pending := lls ++ rest; stdout := out |} =
            (Returned tt, {| ll_record := None; ll_pending := rest;
                            stdout := out ++ (Line <$> (r :: rs)) |})) as Hbuffered.
    { rewrite for_each_cons. unfold body. rewrite body_buffered.
      fold body. fold merge. rewrite Hr.
      apply merge_record_Returned in Hr as [(Hc & Hp & _) _].
      rewrite bool_decide_eq_false_2 by (intros ?; congruence).
      rewrite bool_decide_eq_false_2 by lia. simpl.
      rewrite (proj1 (IH _)). by rewrite <-app_assoc. }
    split; [|by intros ? ? [= <- <-]].
    change ((ll_rec :: lls) ++ rest) with (ll_rec :: (lls ++ rest)).
    rewrite for_each_cons. unfold body. rewrite body_refill. fold body.
    by rewrite for_each_cons in Hbuffered.
Qed.

End Walk.

(** X14. The merge join on files whose headers pass the initialisation. The
    genotype records up to the last merge are passed over or merged, in
    order, against the first likelihood records, and the lines written are
    those merges. If the genotype file ends there, the run returns with an
    empty lookahead. If more genotype records follow and the next
    likelihood record makes the test of line 56 pass them all over, the
    run returns with that record in the lookahead. If more genotype records
    follow and the likelihood file has ended, the run dies of
    [StopIteration] with the lines already written. *)
Theorem skip_then_merge (isidentifier iskeyword : string → bool)
    (keep_LLs : bool) (gt_vcf_reader ll_vcf_reader : reader)
    (gts tail lls rest rs : list vcf_record) :
  let fmts := formats gt_vcf_reader ++ formats ll_vcf_reader in
  let out := Header (reader_samples gt_vcf_reader) fmts :: (Line <$> rs) in
  (∃ s, s ∈ reader_samples ll_vcf_reader ∧ s ∈ reader_samples gt_vcf_reader) →
  dict_wf (formats ll_vcf_reader) →
  (∀ k, k ∈ keys (formats ll_vcf_reader) → k ∉ keys (formats gt_vcf_reader)) →
  stream gt_vcf_reader = gts ++ tail →
  stream ll_vcf_reader = lls ++ rest →
  walked (merge_record isidentifier iskeyword keep_LLs fmts (formats ll_vcf_reader)
            (reader_samples ll_vcf_reader) (list_to_set (reader_samples ll_vcf_reader)))
         gts lls rs →
  (tail = [] →
   main isidentifier iskeyword keep_LLs gt_vcf_reader ll_vcf_reader
     = (Returned tt, {| ll_record := None; ll_pending := rest; stdout := out |})) ∧
  (∀ ll_rec rest',
     tail ≠ [] → rest = ll_rec :: rest' →
     Forall (λ gt_record, CHROM gt_record ≠ CHROM ll_rec ∨ POS gt_record < POS ll_rec) tail →
     main isidentifier iskeyword keep_LLs gt_vcf_reader ll_vcf_reader
       = (Returned tt, {| ll_record := Some ll_rec; ll_pending := rest'; stdout := out |})) ∧
  (tail ≠ [] → rest = [] →
   main isidentifier iskeyword keep_LLs gt_vcf_reader ll_vcf_reader
     = (Raised StopIteration, {| ll_record := None; ll_pending := []; stdout := out |})).
Proof.
  intros fmts out (s & Hl & Hg) Hwf Hdisj Hgts Hlls Hwalk.
  assert (main isidentifier iskeyword keep_LLs gt_vcf_reader ll_vcf_reader =
          for_each (loop_body isidentifier iskeyword keep_LLs fmts (formats ll_vcf_reader)
                      (reader_samples ll_vcf_reader)
                      (list_to_set (reader_samples ll_vcf_reader)))
            tail {| ll_record := None; ll_pending := rest; stdout := out |}) as ->.
  { unfold main.
    rewrite decide_False by (rewrite no_shared_sample_size; intros H; by apply (H s)).
    unfold mbind at 1, M_bind, lift.
    rewrite unify_formats_disjoint by done.
    unfold mbind, M_bind, open_writer. simpl. rewrite Hgts, Hlls, for_each_app.
    by rewrite (proj1 (for_each_walked _ _ _ _ _ _ _ _ _ _ _ _ Hwalk)). }
  split_and!.
  - by intros ->.
  - intros ll_rec rest' Htail -> Hskip.
    destruct tail as [|gt_record tail]; [done|].
    rewrite for_each_cons, body_refill, <-for_each_cons.
    by apply for_each_continue.
  - intros Htail ->. destruct tail as [|gt_record tail]; [done|].
    apply loop_exhausted.
Qed.

Lemma skip_then_merge_witness :
  main3 false (gt_file [gt_site "chr1" 50; gt_site "chr1" 100; gt_site "chr1" 120])
    (ll_file [ll_site "chr1" 100; ll_site "chr1" 150]) =
    (Returned tt,
     {| ll_record := Some (ll_site "chr1" 150); ll_pending := [];
        stdout := Header ["s1"] (formats (gt_file []) ++ formats (ll_file []))
                  :: (Line <$> [merged_site "chr1" 100]) |}).
Proof.
  destruct (skip_then_merge ascii_isidentifier py3_iskeyword false
              (gt_file [gt_site "chr1" 50; gt_site "chr1" 100; gt_site "chr1" 120])
              (ll_file [ll_site "chr1" 100; ll_site "chr1" 150])
              [gt_site "chr1" 50; gt_site "chr1" 100] [gt_site "chr1" 120]
              [ll_site "chr1" 100] [ll_site "chr1" 150] [merged_site "chr1" 100])
    as (_ & Hlookahead & _).
  - exists "s1". split; simpl; left.
  - unfold dict_wf. simpl. apply NoDup_singleton.
  - simpl. intros k Hk%list_elem_of_singleton Hin. subst k.
    repeat (apply elem_of_cons in Hin as [Hin|Hin]; [discriminate|]).
    by apply elem_of_nil in Hin.
  - reflexivity.
  - reflexivity.
  - apply walked_skip; [right; reflexivity|].
    apply (walked_merge _ _ _ _ _ (merged_site "chr1" 100)); [reflexivity|constructor].
  - apply (Hlookahead (ll_site "chr1" 150) []); [discriminate|reflexivity|].
    constructor; [right; reflexivity|constructor].
Defined.

(** ** A field that no header declares *)





(** The same genotype record against a likelihood header that declares
    [AD]: line 78 finds the declaration in the extended
    [gt_vcf_reader.formats] and the record is written. *)
Example field_declared_by_other_header :
  main3 false (gt_with_AD []) ll_declaring_AD =
    (Returned tt,
     {| ll_record := None; ll_pending := [];
        stdout := [Header ["s1"] (formats (gt_file []) ++ formats ll_declaring_AD);
                   Line (site "chr1" 100 "GT:AD:DP:DNM_LL"
                           [("GT", PyStr "0/1"); ("AD", PyStr "3,4"); ("DP", PyInt 30);
                            ("DNM_LL", PyFloat "-2.3")])] |}).
Proof. by vm_compute. Qed.
